(** * Camera abstraction: lifecycle state machine, configuration
      reconciliation and backend selection.

    Shallow embedding of
      - Software/Interface/camera_interface.py  (value types, exceptions),
      - Software/Drivers/opencv_camera.py       (the OpenCVCamera driver),
      - Software/Config/camera_factory.py       (CameraFactory.create).

    The Python object is a record; every method is a function in a small
    state-and-exception monad over a [World] that holds the object, the
    cursors of the native capture source and of the monotonic clock, and
    the log of native calls issued so far.  The native layer
    (cv2.VideoCapture, time.monotonic, importlib) is an environment [Env]. *)

From Stdlib Require Import ZArith QArith Bool List Lia.
From stdpp Require Import base option strings gmap.
Import ListNotations.

Local Open Scope Z_scope.

(* ===================================================================== *)
(** ** Data structures (camera_interface.py)                              *)
(* ===================================================================== *)

(** [@dataclass(frozen=True) class Resolution]. *)
Record Resolution := mkResolution {
  width  : Z;
  height : Z;
}.

(** A numpy buffer, as far as the driver looks at it: its [shape] tuple and
    the pixel bytes. *)
Record ndarray := mkNdarray {
  shape : list Z;
  pixels : list Z;
}.

(** [@dataclass class Frame]. *)
Record Frame := mkFrame {
  data : ndarray;
  frame_width : Z;
  frame_height : Z;
  channels : Z;
  frame_pixel_format : string;
  timestamp : Q;
}.

(** [@dataclass class CameraConfig]; floats are read as rationals. *)
Record CameraConfig := mkCameraConfig {
  resolution : Resolution;
  framerate : Q;
  pixel_format : string;
  rotation_deg : Z;
  hflip : bool;
  vflip : bool;
  auto_exposure : bool;
  exposure_time_us : option Z;
  iso : option Z;
  auto_white_balance : bool;
  white_balance_gain_r : option Q;
  white_balance_gain_b : option Q;
  auto_focus : bool;
  focus_distance_m : option Q;
  roi_norm : option (Q * Q * Q * Q);
}.

(** [CameraConfig()] : the field defaults of the dataclass. *)
Definition CameraConfig_default : CameraConfig :=
  {| resolution := mkResolution 1280 720;
     framerate := 30 # 1;
     pixel_format := "BGR";
     rotation_deg := 0;
     hflip := false;
     vflip := false;
     auto_exposure := true;
     exposure_time_us := None;
     iso := None;
     auto_white_balance := true;
     white_balance_gain_r := None;
     white_balance_gain_b := None;
     auto_focus := true;
     focus_distance_m := None;
     roi_norm := None |}.

(** The exceptions the modelled code can raise.  The first three are the
    subclasses of [CameraError]; [cv2_error] is the exception of the
    OpenCV bindings; the others are Python built-ins. *)
Inductive Exn :=
| CameraOpenError
| CameraStateError
| CameraTimeout
| ValueError
| TypeError
| AttributeError
| ModuleNotFoundError
| OverflowError
| cv2_error.

(** [isinstance(e, CameraError)]. *)
Definition is_CameraError (e : Exn) : bool :=
  match e with
  | CameraOpenError | CameraStateError | CameraTimeout => true
  | _ => false
  end.

(** The dictionary returned by [capabilities()]. *)
Record ControlCaps := mkControlCaps {
  exposure_auto : bool;
  exposure_manual : bool;
  wb_auto : bool;
  wb_manual_gains : bool;
  focus_auto : bool;
  focus_manual_distance : bool;
}.

Record Capabilities := mkCapabilities {
  resolutions : list (Z * Z);
  pixel_formats : list string;
  controls : ControlCaps;
  roi_supported : bool;
}.

(* ===================================================================== *)
(** ** The native layer                                                   *)
(* ===================================================================== *)

(** The properties the driver sets through [cv2.VideoCapture.set]. *)
Inductive CapProp := CAP_PROP_FRAME_WIDTH | CAP_PROP_FRAME_HEIGHT | CAP_PROP_FPS.

(** A [cv2.VideoCapture] object: the index it was built for and whether
    the device could be acquired ([isOpened()]). *)
Record VideoCapture := mkVideoCapture {
  vc_index : Z;
  vc_opened : bool;
}.

(** Calls that reach the native layer, in the order they are logged. *)
Inductive NativeCall :=
| NVideoCapture (index : Z)
| NSet (p : CapProp) (v : Q)
| NRead
| NGrab
| NRelease
| NImwrite (path : string).

(** What lies outside the modelled code: which device indices can be
    opened, what the k-th acquisition on an opened device yields ([None]:
    the primitive reports failure), what the k-th call of
    [time.monotonic()] returns, the subtraction of the platform's
    floating-point numbers (for IEEE doubles: [double_sub] below), and
    the paths and images on which [cv2.imwrite] raises. *)
Record Env := mkEnv {
  device_present : Z -> bool;
  source : nat -> option ndarray;
  monotonic : nat -> Q;
  float_sub : Q -> Q -> Q;
  imwrite_raises : string -> ndarray -> bool;
}.

(** *** IEEE 754 binary64, as far as the driver needs it *)

(** Rounding of a rational to the nearest integer, ties to even. *)
Definition round_half_even (q : Q) : Z :=
  let n := Qnum q in
  let d := Zpos (Qden q) in
  let f := n / d in
  let r := n mod d in
  match (2 * r ?= d) with
  | Lt => f
  | Gt => f + 1
  | Eq => if Z.even f then f else f + 1
  end.

Definition Qpow2 (e : Z) : Q := Qpower (2 # 1) e.

(** For [a > 0], the exponent [e] with [2^e <= a < 2^(e+1)]. *)
Definition binade (a : Q) : Z :=
  let e0 := Z.log2 (Qnum a) - Z.log2 (Zpos (Qden a)) in
  if Qle_bool (Qpow2 e0) a then e0 else e0 - 1.

(** The double nearest to a rational, ties to even, with gradual
    underflow.  Values beyond the largest double, which round to an
    infinity, are outside this model: no clock reading and no value that
    passes [fits_double] is that large. *)
Definition round_double (x : Q) : Q :=
  if Qeq_bool x 0 then 0%Q
  else
    let a := if Qle_bool 0 x then x else (- x)%Q in
    let e := Z.max (binade a) (-1022) in
    let ulp := Qpow2 (e - 52) in
    let m := round_half_even (a / ulp) in
    Qred ((if Qle_bool 0 x then 1 else - (1)) * inject_Z m * ulp).

(** [x - y] on doubles. *)
Definition double_sub (x y : Q) : Q := round_double (x - y).

(** The Python integers that convert to a double: beyond them the
    conversion raises [OverflowError]. *)
Definition fits_double (z : Z) : bool :=
  Z.abs z <? 2 ^ 1024 - 2 ^ 970.

(* ===================================================================== *)
(** ** The driver object and the world around it                          *)
(* ===================================================================== *)

(** The attributes of an [OpenCVCamera] instance that the methods read or
    write ([_lock] guards a single-threaded model and [_name] is only
    displayed; both are left out). *)
Record OpenCVCamera := mkOpenCVCamera {
  _device_index : Z;
  _capture : option VideoCapture;
  _is_open : bool;
  _is_streaming : bool;
  _current_config : CameraConfig;
}.

Record World := mkWorld {
  self : OpenCVCamera;
  acquisitions : nat;          (* frames the opened device was asked for *)
  clock_reads : nat;           (* calls of time.monotonic() so far *)
  native_log : list NativeCall (* most recent call first *)
}.

(** [OpenCVCamera.__init__(device_index, **kwargs)]: the class attributes
    of [CameraInterface] give the initial flags and configuration. *)
Definition OpenCVCamera_init (device_index : Z) : OpenCVCamera :=
  {| _device_index := device_index;
     _capture := None;
     _is_open := false;
     _is_streaming := false;
     _current_config := CameraConfig_default |}.

Definition fresh_world (device_index : Z) : World :=
  {| self := OpenCVCamera_init device_index;
     acquisitions := 0;
     clock_reads := 0;
     native_log := [] |}.

(** Attribute assignments on [self]. *)
Definition set_capture (c : option VideoCapture) (o : OpenCVCamera) : OpenCVCamera :=
  {| _device_index := _device_index o; _capture := c; _is_open := _is_open o;
     _is_streaming := _is_streaming o; _current_config := _current_config o |}.

Definition set_is_open (b : bool) (o : OpenCVCamera) : OpenCVCamera :=
  {| _device_index := _device_index o; _capture := _capture o; _is_open := b;
     _is_streaming := _is_streaming o; _current_config := _current_config o |}.

Definition set_is_streaming (b : bool) (o : OpenCVCamera) : OpenCVCamera :=
  {| _device_index := _device_index o; _capture := _capture o; _is_open := _is_open o;
     _is_streaming := b; _current_config := _current_config o |}.

Definition set_current_config (c : CameraConfig) (o : OpenCVCamera) : OpenCVCamera :=
  {| _device_index := _device_index o; _capture := _capture o; _is_open := _is_open o;
     _is_streaming := _is_streaming o; _current_config := c |}.

(* ===================================================================== *)
(** ** A state-and-exception monad                                        *)
(* ===================================================================== *)

(** How a call ends: it returns, it raises, or (for the [while True] loop
    of [read], run with a bound on its iterations) it is still looping. *)
Inductive outcome (A : Type) :=
| Returned (a : A)
| Raised (e : Exn)
| Looping.
Arguments Returned {A} a.
Arguments Raised {A} e.
Arguments Looping {A}.

Definition M (A : Type) : Type := World -> outcome A * World.

Definition ret {A} (a : A) : M A := fun w => (Returned a, w).
Definition raise {A} (e : Exn) : M A := fun w => (Raised e, w).
Definition looping {A} : M A := fun w => (Looping, w).

Definition bind {A B} (m : M A) (f : A -> M B) : M B :=
  fun w =>
    match m w with
    | (Returned a, w') => f a w'
    | (Raised e, w') => (Raised e, w')
    | (Looping, w') => (Looping, w')
    end.

#[global] Instance M_ret : MRet M := @ret.
#[global] Instance M_bind : MBind M := fun A B f m => bind m f.

Definition get_self : M OpenCVCamera := fun w => (Returned (self w), w).

Definition modify_self (f : OpenCVCamera -> OpenCVCamera) : M unit :=
  fun w => (Returned tt,
            {| self := f (self w); acquisitions := acquisitions w;
               clock_reads := clock_reads w; native_log := native_log w |}).

Definition log_call (c : NativeCall) : M unit :=
  fun w => (Returned tt,
            {| self := self w; acquisitions := acquisitions w;
               clock_reads := clock_reads w; native_log := c :: native_log w |}).

(* ===================================================================== *)
(** ** Native primitives, as the driver uses them                         *)
(* ===================================================================== *)

Section Native.
Variable env : Env.

(** [cv2.VideoCapture(index, cv2.CAP_V4L2)]: always yields an object;
    whether the device was acquired is what [isOpened()] tells. *)
Definition VideoCapture_new (index : Z) : M VideoCapture :=
  log_call (NVideoCapture index) ;;
  mret (mkVideoCapture index (device_present env index)).

Definition isOpened (cap : VideoCapture) : bool := vc_opened cap.

(** [cap.set(prop, value)] with a float [value]; its Boolean result is
    discarded by every caller in the driver. *)
Definition VideoCapture_set (cap : VideoCapture) (p : CapProp) (v : Q) : M unit :=
  log_call (NSet p v).

(** [cap.set(prop, value)] with an integer [value]: the binding converts
    it to a double, which raises [OverflowError] before the device is
    reached when the integer is beyond the double range. *)
Definition VideoCapture_set_int (cap : VideoCapture) (p : CapProp) (z : Z) : M unit :=
  if fits_double z then VideoCapture_set cap p (round_double (inject_Z z))
  else raise OverflowError.

(** Asking the device for its next frame advances the source; a handle
    that was never acquired yields nothing and consumes nothing. *)
Definition next_acquisition (cap : VideoCapture) : M (option ndarray) :=
  fun w =>
    if vc_opened cap then
      (Returned (source env (acquisitions w)),
       {| self := self w; acquisitions := S (acquisitions w);
          clock_reads := clock_reads w; native_log := native_log w |})
    else (Returned None, w).

(** [ok, frame = cap.read()]: [Some frame] stands for [ok = True]. *)
Definition VideoCapture_read (cap : VideoCapture) : M (option ndarray) :=
  log_call NRead ;; next_acquisition cap.

(** [cap.grab()]: takes a frame off the device without decoding it. *)
Definition VideoCapture_grab (cap : VideoCapture) : M unit :=
  log_call NGrab ;; _ ← next_acquisition cap; mret tt.

Definition VideoCapture_release (cap : VideoCapture) : M unit :=
  log_call NRelease.

(** [cv2.imwrite(path, img)]: raises [cv2.error] on the paths and images
    the environment says (a file name without a known extension, an
    empty image); its Boolean result is discarded by the caller. *)
Definition imwrite (path : string) (img : ndarray) : M unit :=
  log_call (NImwrite path) ;;
  if imwrite_raises env path img then raise cv2_error else mret tt.

(** [time.monotonic()]. *)
Definition time_monotonic : M Q :=
  fun w =>
    (Returned (monotonic env (clock_reads w)),
     {| self := self w; acquisitions := acquisitions w;
        clock_reads := S (clock_reads w); native_log := native_log w |}).
End Native.

(** [a > b] on two doubles, which are rationals. *)
Definition Qgtb (a b : Q) : bool := negb (Qle_bool a b).

(** [h, w, c = frame.shape]: unpacking a tuple of any other length raises
    [ValueError]. *)
Definition unpack_shape (buf : ndarray) : M (Z * Z * Z) :=
  match shape buf with
  | [h; w; c] => mret (h, w, c)
  | _ => raise ValueError
  end.

(** Truth value of an optional path: [None] and the empty string are
    false. *)
Definition path_given (path : option string) : option string :=
  match path with
  | Some p => if decide (p = EmptyString) then None else Some p
  | None => None
  end.

(* ===================================================================== *)
(** ** OpenCVCamera (opencv_camera.py)                                    *)
(* ===================================================================== *)

Section Driver.
Variable env : Env.

(** [set_config(config)].  [if not self._capture] tests the attribute
    against [None]: a [cv2.VideoCapture] object is always true, opened
    or not. *)
Definition set_config (config : CameraConfig) : M CameraConfig :=
  o ← get_self;
  match _capture o with
  | None => raise CameraStateError
  | Some cap =>
      VideoCapture_set_int cap CAP_PROP_FRAME_WIDTH (width (resolution config)) ;;
      VideoCapture_set_int cap CAP_PROP_FRAME_HEIGHT (height (resolution config)) ;;
      VideoCapture_set cap CAP_PROP_FPS (framerate config) ;;
      modify_self (set_current_config config) ;;
      o' ← get_self;
      mret (_current_config o')
  end.

(** [open(config=None)].  [if config:] is a test against [None], a
    dataclass instance being always true. *)
Definition open (config : option CameraConfig) : M unit :=
  o ← get_self;
  if _is_open o then mret tt
  else
    cap ← VideoCapture_new env (_device_index o);
    modify_self (set_capture (Some cap)) ;;
    if negb (isOpened cap) then raise CameraOpenError
    else
      modify_self (set_is_open true) ;;
      match config with
      | Some cfg => _ ← set_config cfg; mret tt
      | None => modify_self (set_current_config CameraConfig_default)
      end.

(** [close()]. *)
Definition close : M unit :=
  o ← get_self;
  match _capture o with
  | Some cap =>
      VideoCapture_release cap ;;
      modify_self (set_capture None)
  | None => mret tt
  end ;;
  modify_self (set_is_open false) ;;
  modify_self (set_is_streaming false).

(** [start_stream()]. *)
Definition start_stream : M unit :=
  o ← get_self;
  if negb (_is_open o) then raise CameraStateError
  else modify_self (set_is_streaming true).

(** [stop_stream()]. *)
Definition stop_stream : M unit :=
  modify_self (set_is_streaming false).

(** The body of [while True:] in [read], run for at most [fuel]
    iterations; [Looping] says the loop has not left yet. *)
Fixpoint read_loop (fuel : nat) (cap : VideoCapture) (timeout : option Q)
         (start_time : Q) : M Frame :=
  match fuel with
  | O => looping
  | S fuel' =>
      r ← VideoCapture_read env cap;
      match r with
      | Some frame =>
          '(h, w, c) ← unpack_shape frame;
          now ← time_monotonic env;
          mret (mkFrame frame w h c "BGR" now)
      | None =>
          match timeout with
          | None => read_loop fuel' cap timeout start_time
          | Some t =>
              now ← time_monotonic env;
              if Qgtb (float_sub env now start_time) t then raise CameraTimeout
              else read_loop fuel' cap timeout start_time
          end
      end
  end.

(** The declared default of [read]'s parameter: [timeout = 2.0]. *)
Definition read_default_timeout : option Q := Some (2 # 1).

(** [read(timeout=2.0)].  The argument is [None] when the caller does
    not pass it, [Some None] for an explicit [timeout=None] and
    [Some (Some t)] for [timeout=t]. *)
Definition read (fuel : nat) (timeout_arg : option (option Q)) : M Frame :=
  let timeout := default read_default_timeout timeout_arg in
  o ← get_self;
  match negb (_is_streaming o), _capture o with
  | false, Some cap =>
      start_time ← time_monotonic env;
      read_loop fuel cap timeout start_time
  | _, _ => raise CameraStateError
  end.

(** [flush()]. *)
Definition flush : M unit :=
  o ← get_self;
  match _capture o with
  | None => mret tt
  | Some cap =>
      VideoCapture_grab env cap ;; VideoCapture_grab env cap ;;
      VideoCapture_grab env cap ;; VideoCapture_grab env cap ;;
      VideoCapture_grab env cap
  end.

(** [capture(path=None)]. *)
Definition capture (path : option string) : M Frame :=
  o ← get_self;
  match negb (_is_open o), _capture o with
  | false, Some cap =>
      r ← VideoCapture_read env cap;
      match r with
      | None => raise CameraTimeout
      | Some frame =>
          '(h, w, c) ← unpack_shape frame;
          now ← time_monotonic env;
          let f := mkFrame frame w h c "BGR" now in
          match path_given path with
          | Some p => imwrite env p frame
          | None => mret tt
          end ;;
          mret f
      end
  | _, _ => raise CameraStateError
  end.

(** [capabilities()]. *)
Definition capabilities : M Capabilities :=
  o ← get_self;
  match _capture o with
  | None => raise CameraStateError
  | Some _ =>
      mret {| resolutions := [(640, 480); (1280, 720); (1920, 1080)];
              pixel_formats := ["BGR"%string];
              controls := {| exposure_auto := true; exposure_manual := false;
                             wb_auto := true; wb_manual_gains := false;
                             focus_auto := false; focus_manual_distance := false |};
              roi_supported := false |}
  end.

(** The read-only properties of [CameraInterface]. *)
Definition is_open (w : World) : bool := _is_open (self w).
Definition is_streaming (w : World) : bool := _is_streaming (self w).
Definition current_config (w : World) : CameraConfig := _current_config (self w).
End Driver.

(* ===================================================================== *)
(** ** The lifecycle seen from outside                                    *)
(* ===================================================================== *)

Inductive Lifecycle := Closed | OpenIdle | OpenStreaming.

(** The state a caller observes through [is_open] and [is_streaming]. *)
Definition lifecycle (w : World) : Lifecycle :=
  if is_open w then (if is_streaming w then OpenStreaming else OpenIdle)
  else Closed.

(** One call of the public interface of the driver. *)
Inductive Call :=
| call_open (config : option CameraConfig)
| call_close
| call_start_stream
| call_stop_stream
| call_read (fuel : nat) (timeout_arg : option (option Q))
| call_flush
| call_capture (path : option string)
| call_set_config (config : CameraConfig)
| call_capabilities.

(** The world a call leaves behind, whether it returned or raised. *)
Definition after (env : Env) (c : Call) (w : World) : World :=
  match c with
  | call_open config => snd (open env config w)
  | call_close => snd (close w)
  | call_start_stream => snd (start_stream w)
  | call_stop_stream => snd (stop_stream w)
  | call_read fuel t => snd (read env fuel t w)
  | call_flush => snd (flush env w)
  | call_capture path => snd (capture env path w)
  | call_set_config config => snd (set_config config w)
  | call_capabilities => snd (capabilities w)
  end.

(** Worlds a caller can bring a freshly constructed driver into; the
    environment may differ from call to call (devices come and go). *)
Inductive reachable : World -> Prop :=
| reach_fresh (device_index : Z) : reachable (fresh_world device_index)
| reach_call (env : Env) (c : Call) (w : World) :
    reachable w -> reachable (after env c w).

(** [close()] called [n] times in a row: the outcomes, oldest first, and
    the final world. *)
Fixpoint close_times (n : nat) (w : World) : list (outcome unit) * World :=
  match n with
  | O => ([], w)
  | S n' =>
      let '(r, w') := close w in
      let '(rs, w'') := close_times n' w' in
      (r :: rs, w'')
  end.

(** How often the capture primitive was invoked, according to the log. *)
Definition count_reads (l : list NativeCall) : nat :=
  length (List.filter (fun c => match c with NRead => true | _ => false end) l).

(* ===================================================================== *)
(** ** CameraFactory (camera_factory.py)                                  *)
(* ===================================================================== *)

Module CameraFactory.

(** [CAMERA_HARDWARE_CONFIG], passed as keyword arguments. *)
Record HardwareConfig := mkHardwareConfig {
  device_index : Z;
  default_resolution : Z * Z;
  default_framerate : Q;
}.

Definition CAMERA_HARDWARE_CONFIG : HardwareConfig :=
  {| device_index := 0; default_resolution := (640, 480);
     default_framerate := 30 # 1 |}.

Definition ACTIVE_CAMERA_DRIVER : string :=
  "Software.Drivers.opencv_camera.OpenCVCamera".

(** A class found in a module: its name, whether it derives from
    [CameraInterface], and what calling it with the hardware parameters
    as keyword arguments does: [Some e] when the call raises [e] (an
    abstract class, a constructor that does not take these keywords, an
    error inside [__init__]), [None] when it returns an instance. *)
Record PyClass := mkPyClass {
  cls_name : string;
  cls_is_camera : bool;
  cls_new : HardwareConfig -> option Exn;
}.

(** A module attribute is a class or something that cannot be called. *)
Inductive PyAttr :=
| AttrClass (cls : PyClass)
| AttrValue.

(** An object built by calling a class with the hardware parameters. *)
Record Instance := mkInstance {
  inst_class : PyClass;
  inst_kwargs : HardwareConfig;
}.

(** The importable modules, each a namespace from attribute names to
    attributes. *)
Abbreviation Modules := (gmap string (gmap string PyAttr)).

(** The character [.] that separates module and class names. *)
Definition dot : Ascii.ascii := Ascii.ascii_of_nat 46.

(** [key.rsplit(".", 1)] unpacked into two names: the split is at the
    last dot; without a dot the unpacking fails ([None]). *)
Fixpoint rsplit_dot (s : string) : option (string * string) :=
  match s with
  | EmptyString => None
  | String c rest =>
      match rsplit_dot rest with
      | Some (h, t) => Some (String c h, t)
      | None => if Ascii.eqb c dot then Some (EmptyString, rest) else None
      end
  end.

(** [importlib.import_module(name)]: an empty name is a [ValueError], a
    relative name without a package a [TypeError], an unknown module a
    [ModuleNotFoundError]. *)
Definition import_module (modules : Modules) (name : string)
  : gmap string PyAttr + Exn :=
  match name with
  | EmptyString => inr ValueError
  | String c _ =>
      if Ascii.eqb c dot then inr TypeError
      else match modules !! name with
           | Some m => inl m
           | None => inr ModuleNotFoundError
           end
  end.

(** [isinstance(camera, CameraInterface)]. *)
Definition isinstance_CameraInterface (camera : Instance) : bool :=
  cls_is_camera (inst_class camera).

(** [CameraFactory.create()], with the module constant
    [ACTIVE_CAMERA_DRIVER] and the hardware parameters as arguments.
    The second component lists the objects that were constructed. *)
Definition create (modules : Modules) (key : string) (hw : HardwareConfig)
  : outcome Instance * list Instance :=
  match rsplit_dot key with
  | None => (Raised ValueError, [])
  | Some (module_path, class_name) =>
      match import_module modules module_path with
      | inr e => (Raised e, [])
      | inl module =>
          match module !! class_name with
          | None => (Raised AttributeError, [])
          | Some AttrValue => (Raised TypeError, [])
          | Some (AttrClass driver_class) =>
              match cls_new driver_class hw with
              | Some e => (Raised e, [])
              | None =>
                  let camera := mkInstance driver_class hw in
                  if negb (isinstance_CameraInterface camera)
                  then (Raised TypeError, [camera])
                  else (Returned camera, [camera])
              end
          end
      end
  end.


(** The classes of the repository that the driver module has in its
    namespace.  [OpenCVCamera.__init__(device_index=0, **kwargs)] takes
    every keyword; [CameraInterface] has abstract methods, and the
    dataclass [Resolution] has no field named like a hardware parameter:
    calling either raises [TypeError]. *)
Definition OpenCVCamera_class : PyClass :=
  {| cls_name := "OpenCVCamera"; cls_is_camera := true; cls_new := fun _ => None |}.

Definition CameraInterface_class : PyClass :=
  {| cls_name := "CameraInterface"; cls_is_camera := true;
     cls_new := fun _ => Some TypeError |}.

Definition Resolution_class : PyClass :=
  {| cls_name := "Resolution"; cls_is_camera := false;
     cls_new := fun _ => Some TypeError |}.

End CameraFactory.

(* ===================================================================== *)
(** ** CameraInterface: helpers built on the abstract methods             *)
(* ===================================================================== *)

(** [set_resolution(width, height)]: a new [CameraConfig] is built from
    the attribute dictionary of [current_config] with the entry for
    [resolution] replaced, and handed to [set_config]. *)
Definition set_resolution (width height : Z) : M CameraConfig :=
o ← get_self;
let cfg := _current_config o in
set_config
  {| resolution := mkResolution width height;
     framerate := framerate cfg;
     pixel_format := pixel_format cfg;
     rotation_deg := rotation_deg cfg;
     hflip := hflip cfg;
     vflip := vflip cfg;
     auto_exposure := auto_exposure cfg;
     exposure_time_us := exposure_time_us cfg;
     iso := iso cfg;
     auto_white_balance := auto_white_balance cfg;
     white_balance_gain_r := white_balance_gain_r cfg;
     white_balance_gain_b := white_balance_gain_b cfg;
     auto_focus := auto_focus cfg;
     focus_distance_m := focus_distance_m cfg;
     roi_norm := roi_norm cfg |}.

(** [set_framerate(fps)]. *)
Definition set_framerate (fps : Q) : M CameraConfig :=
o ← get_self;
let cfg := _current_config o in
set_config
  {| resolution := resolution cfg;
     framerate := fps;
     pixel_format := pixel_format cfg;
     rotation_deg := rotation_deg cfg;
     hflip := hflip cfg;
     vflip := vflip cfg;
     auto_exposure := auto_exposure cfg;
     exposure_time_us := exposure_time_us cfg;
     iso := iso cfg;
     auto_white_balance := auto_white_balance cfg;
     white_balance_gain_r := white_balance_gain_r cfg;
     white_balance_gain_b := white_balance_gain_b cfg;
     auto_focus := auto_focus cfg;
     focus_distance_m := focus_distance_m cfg;
     roi_norm := roi_norm cfg |}.

(** [set_exposure(auto, exposure_time_us=None, iso=None)]:
    ["exposure_time_us": exposure_time_us if not auto else None]. *)
Definition set_exposure (auto : bool) (exposure_time_us_arg iso_arg : option Z)
  : M CameraConfig :=
o ← get_self;
let cfg := _current_config o in
set_config
  {| resolution := resolution cfg;
     framerate := framerate cfg;
     pixel_format := pixel_format cfg;
     rotation_deg := rotation_deg cfg;
     hflip := hflip cfg;
     vflip := vflip cfg;
     auto_exposure := auto;
     exposure_time_us := if negb auto then exposure_time_us_arg else None;
     iso := iso_arg;
     auto_white_balance := auto_white_balance cfg;
     white_balance_gain_r := white_balance_gain_r cfg;
     white_balance_gain_b := white_balance_gain_b cfg;
     auto_focus := auto_focus cfg;
     focus_distance_m := focus_distance_m cfg;
     roi_norm := roi_norm cfg |}.

(** [set_white_balance(auto, gain_r=None, gain_b=None)]. *)
Definition set_white_balance (auto : bool) (gain_r gain_b : option Q)
  : M CameraConfig :=
o ← get_self;
let cfg := _current_config o in
set_config
  {| resolution := resolution cfg;
     framerate := framerate cfg;
     pixel_format := pixel_format cfg;
     rotation_deg := rotation_deg cfg;
     hflip := hflip cfg;
     vflip := vflip cfg;
     auto_exposure := auto_exposure cfg;
     exposure_time_us := exposure_time_us cfg;
     iso := iso cfg;
     auto_white_balance := auto;
     white_balance_gain_r := if negb auto then gain_r else None;
     white_balance_gain_b := if negb auto then gain_b else None;
     auto_focus := auto_focus cfg;
     focus_distance_m := focus_distance_m cfg;
     roi_norm := roi_norm cfg |}.

(** [set_focus(auto, distance_m=None)]. *)
Definition set_focus (auto : bool) (distance_m : option Q) : M CameraConfig :=
o ← get_self;
let cfg := _current_config o in
set_config
  {| resolution := resolution cfg;
     framerate := framerate cfg;
     pixel_format := pixel_format cfg;
     rotation_deg := rotation_deg cfg;
     hflip := hflip cfg;
     vflip := vflip cfg;
     auto_exposure := auto_exposure cfg;
     exposure_time_us := exposure_time_us cfg;
     iso := iso cfg;
     auto_white_balance := auto_white_balance cfg;
     white_balance_gain_r := white_balance_gain_r cfg;
     white_balance_gain_b := white_balance_gain_b cfg;
     auto_focus := auto;
     focus_distance_m := if negb auto then distance_m else None;
     roi_norm := roi_norm cfg |}.

(** [set_roi(x, y, w, h)]. *)
Definition set_roi (x y w h : Q) : M CameraConfig :=
o ← get_self;
let cfg := _current_config o in
set_config
  {| resolution := resolution cfg;
     framerate := framerate cfg;
     pixel_format := pixel_format cfg;
     rotation_deg := rotation_deg cfg;
     hflip := hflip cfg;
     vflip := vflip cfg;
     auto_exposure := auto_exposure cfg;
     exposure_time_us := exposure_time_us cfg;
     iso := iso cfg;
     auto_white_balance := auto_white_balance cfg;
     white_balance_gain_r := white_balance_gain_r cfg;
     white_balance_gain_b := white_balance_gain_b cfg;
     auto_focus := auto_focus cfg;
     focus_distance_m := focus_distance_m cfg;
     roi_norm := Some (x, y, w, h) |}.

(** The generator object made by [frames(timeout=2.0)]: the timeout it
    was called with and whether its body has ended (by leaving the
    [while] loop or by an exception passing through it). *)
Record FramesGenerator := mkFramesGenerator {
  gen_timeout : option Q;
  gen_finished : bool;
}.

(** [cam.frames(timeout)]: nothing runs until the first [next]. *)
Definition frames (timeout_arg : option (option Q)) : FramesGenerator :=
{| gen_timeout := default (Some (2 # 1)) timeout_arg; gen_finished := false |}.

Definition finished (g : FramesGenerator) : FramesGenerator :=
{| gen_timeout := gen_timeout g; gen_finished := true |}.

(** One [next(gen)]: [Returned None] stands for [StopIteration].  The
    body is [while self.is_streaming: yield self.read(timeout=timeout)]. *)
Definition frames_next (env : Env) (fuel : nat) (g : FramesGenerator) (w : World)
  : outcome (option Frame) * FramesGenerator * World :=
if gen_finished g then (Returned None, g, w)
else if is_streaming w then
  match read env fuel (Some (gen_timeout g)) w with
  | (Returned f, w') => (Returned (Some f), g, w')
  | (Raised e, w') => (Raised e, finished g, w')
  | (Looping, w') => (Looping, g, w')
  end
else (Returned None, finished g, w).

(** The frames delivered by at most [n] consecutive [next] calls, up to
    the first call that delivers none. *)
Fixpoint frames_take (env : Env) (fuel : nat) (n : nat) (g : FramesGenerator)
         (w : World) : list Frame * FramesGenerator * World :=
match n with
| O => ([], g, w)
| S n' =>
    match frames_next env fuel g w with
    | (Returned (Some f), g', w') =>
        let '(fs, g'', w'') := frames_take env fuel n' g' w' in
        (f :: fs, g'', w'')
    | (_, g', w') => ([], g', w')
    end
end.

(** [try: body finally: cleanup].  A body that is still looping never
    reaches the cleanup; an exception of the cleanup replaces the
    outcome of the body. *)
Definition try_finally {A} (body : M A) (cleanup : M unit) : M A :=
fun w =>
  match body w with
  | (Looping, w') => (Looping, w')
  | (r, w') =>
      match cleanup w' with
      | (Returned _, w'') => (r, w'')
      | (Raised e, w'') => (Raised e, w'')
      | (Looping, w'') => (Looping, w'')
      end
  end.


(** [__enter__]: opens the camera, without a configuration, unless it is
    open. *)
Definition __enter__ (env : Env) : M unit :=
o ← get_self;
if negb (_is_open o) then open env None else mret tt.

(** [__exit__(exc_type, exc, tb)]; it returns [None], so an exception of
    the block is not suppressed. *)
Definition __exit__ : M unit :=
try_finally
  (o ← get_self; if _is_streaming o then stop_stream else mret tt)
  (o ← get_self; if _is_open o then close else mret tt).

(** [with cam: body]. *)
Definition with_camera {A} (env : Env) (body : M A) : M A :=
__enter__ env ;; try_finally body __exit__.

(* ===================================================================== *)
(** ** The factory-mode camera test (test_camera.py)                      *)
(* ===================================================================== *)



(* ===================================================================== *)
(** ** Auxiliary notions used in the statements                           *)
(* ===================================================================== *)

(** Streaming implies open, and open implies an acquired handle. *)
Definition coherent (o : OpenCVCamera) : Prop :=
  (_is_streaming o = true -> _is_open o = true) /\
  (_is_open o = true ->
   exists cap, _capture o = Some cap /\ vc_opened cap = true).

(** The world after one more reading of the clock. *)
Definition ticked (w : World) : World :=
  {| self := self w; acquisitions := acquisitions w;
     clock_reads := S (clock_reads w); native_log := native_log w |}.

(** The world after one call of [cap.read()]. *)
Definition after_native_read (cap : VideoCapture) (w : World) : World :=
  {| self := self w;
     acquisitions := if vc_opened cap then S (acquisitions w) else acquisitions w;
     clock_reads := clock_reads w;
     native_log := NRead :: native_log w |}.

(** The timeout test of the iteration of [read] that follows [i] failed
    ones, for a call whose start time is the [c0]-th reading of the
    clock: [(time.monotonic() - start_time) > t]. *)
Definition timeout_exceeded (env : Env) (t : Q) (c0 i : nat) : bool :=
  Qgtb (float_sub env (monotonic env (S c0 + i)) (monotonic env c0)) t.

(** Width and height of the configuration convert to doubles. *)
Definition resolution_fits (c : CameraConfig) : bool :=
  fits_double (width (resolution c)) && fits_double (height (resolution c)).

(** The world after [start_stream()] followed by [stop_stream()]. *)
Definition after_start_stop (w : World) : World :=
  snd (stop_stream (snd (start_stream w))).

(** The fields of [CameraConfig], to say which of them two
    configurations have in common. *)
Inductive Field :=
| F_resolution | F_framerate | F_pixel_format | F_rotation_deg | F_hflip | F_vflip
| F_auto_exposure | F_exposure_time_us | F_iso
| F_auto_white_balance | F_white_balance_gain_r | F_white_balance_gain_b
| F_auto_focus | F_focus_distance_m | F_roi_norm.

Definition same_field (f : Field) (a b : CameraConfig) : Prop :=
  match f with
  | F_resolution => resolution a = resolution b
  | F_framerate => framerate a = framerate b
  | F_pixel_format => pixel_format a = pixel_format b
  | F_rotation_deg => rotation_deg a = rotation_deg b
  | F_hflip => hflip a = hflip b
  | F_vflip => vflip a = vflip b
  | F_auto_exposure => auto_exposure a = auto_exposure b
  | F_exposure_time_us => exposure_time_us a = exposure_time_us b
  | F_iso => iso a = iso b
  | F_auto_white_balance => auto_white_balance a = auto_white_balance b
  | F_white_balance_gain_r => white_balance_gain_r a = white_balance_gain_r b
  | F_white_balance_gain_b => white_balance_gain_b a = white_balance_gain_b b
  | F_auto_focus => auto_focus a = auto_focus b
  | F_focus_distance_m => focus_distance_m a = focus_distance_m b
  | F_roi_norm => roi_norm a = roi_norm b
  end.

(** [b] differs from [a] at most on the fields listed. *)
Definition differ_at_most_on (fields : list Field) (a b : CameraConfig) : Prop :=
  forall f : Field, ~ In f fields -> same_field f a b.

(** The string contains the separator [.]. *)
Fixpoint has_dot (s : string) : bool :=
  match s with
  | EmptyString => false
  | String c rest => Ascii.eqb c CameraFactory.dot || has_dot rest
  end.

(** [module_path + "." + class_name]. *)
Definition dotted (module_path class_name : string) : string :=
  String.append module_path (String CameraFactory.dot class_name).

(* ===================================================================== *)
(** ** Concrete environments and inputs                                   *)
(* ===================================================================== *)

(** A clock that advances by one second between two readings. *)
Definition one_second_clock (k : nat) : Q := inject_Z (Z.of_nat k).

(** No device answers at any index. *)
Definition env_no_device : Env :=
  {| device_present := fun _ => false;
     source := fun _ => None;
     monotonic := one_second_clock;
     float_sub := double_sub;
     imwrite_raises := fun _ _ => false |}.

(** A device that opens but never delivers a frame. *)
Definition env_silent_camera : Env :=
  {| device_present := fun _ => true;
     source := fun _ => None;
     monotonic := one_second_clock;
     float_sub := double_sub;
     imwrite_raises := fun _ _ => false |}.

(** A device that delivers the same buffer at every acquisition. *)
Definition env_camera (buf : ndarray) : Env :=
  {| device_present := fun _ => true;
     source := fun _ => Some buf;
     monotonic := one_second_clock;
     float_sub := double_sub;
     imwrite_raises := fun _ _ => false |}.

(** A clock whose first reading is 0.9999999999999999 and whose later
    readings are 3.0, 4.0, ... *)
Definition late_clock (k : nat) : Q :=
  match k with
  | O => 1 - Qpow2 (-53)
  | S k' => inject_Z (Z.of_nat k' + 3)
  end.

(** A device that opens, never delivers a frame, and is timed by
    [late_clock]. *)
Definition env_late_clock : Env :=
  {| device_present := fun _ => true;
     source := fun _ => None;
     monotonic := late_clock;
     float_sub := double_sub;
     imwrite_raises := fun _ _ => false |}.

(** A device that delivers [buf]; [cv2.imwrite] raises on file names
    without an extension. *)
Definition env_strict_writer (buf : ndarray) : Env :=
  {| device_present := fun _ => true;
     source := fun _ => Some buf;
     monotonic := one_second_clock;
     float_sub := double_sub;
     imwrite_raises := fun p _ => negb (has_dot p) |}.

(** A 640x480 single-channel image: a two-dimensional array. *)
Definition gray_buffer : ndarray := {| shape := [480; 640]; pixels := [] |}.

(** A 640x480 three-channel image. *)
Definition bgr_buffer : ndarray := {| shape := [480; 640; 3]; pixels := [] |}.

(** A device whose first two acquisitions fail and which delivers
    [bgr_buffer] from the third on. *)
Definition env_slow_start : Env :=
  {| device_present := fun _ => true;
     source := fun k => if (k <? 2)%nat then None else Some bgr_buffer;
     monotonic := one_second_clock;
     float_sub := double_sub;
     imwrite_raises := fun _ _ => false |}.

(** A request for a rotated picture, manual exposure and a region of
    interest, at a resolution the driver does not list. *)
Definition example_request : CameraConfig :=
  {| resolution := mkResolution 641 479;
     framerate := 30 # 1;
     pixel_format := "BGR";
     rotation_deg := 90;
     hflip := true;
     vflip := false;
     auto_exposure := false;
     exposure_time_us := Some 1000;
     iso := None;
     auto_white_balance := true;
     white_balance_gain_r := None;
     white_balance_gain_b := None;
     auto_focus := true;
     focus_distance_m := None;
     roi_norm := Some (0 # 1, 0 # 1, 1 # 2, 1 # 2)%Q |}.


(** [cam = OpenCVCamera(0); cam.open()] with each environment, and then
    [cam.start_stream()]. *)
Definition world_after_failed_open : World :=
  after env_no_device (call_open None) (fresh_world 0).

Definition world_open_idle (env : Env) : World :=
  after env (call_open None) (fresh_world 0).

Definition world_streaming (env : Env) : World :=
  after env call_start_stream (world_open_idle env).

(** A module table with the driver module and the interface module of
    the repository ([cv2] is a module, not a callable), and a module
    with a class that can be constructed but is no camera. *)
Definition example_modules : gmap string (gmap string CameraFactory.PyAttr) :=
  {[ "Software.Drivers.opencv_camera"%string :=
       {[ "OpenCVCamera"%string := CameraFactory.AttrClass CameraFactory.OpenCVCamera_class;
          "CameraInterface"%string :=
            CameraFactory.AttrClass CameraFactory.CameraInterface_class;
          "cv2"%string := CameraFactory.AttrValue ]};
     "Software.Interface.camera_interface"%string :=
       {[ "CameraInterface"%string :=
            CameraFactory.AttrClass CameraFactory.CameraInterface_class;
          "Resolution"%string := CameraFactory.AttrClass CameraFactory.Resolution_class ]};
     "collections"%string :=
       {[ "OrderedDict"%string :=
            CameraFactory.AttrClass
              {| CameraFactory.cls_name := "OrderedDict";
                 CameraFactory.cls_is_camera := false;
                 CameraFactory.cls_new := fun _ => None |} ]} ]}.

(* ===================================================================== *)
(** * Properties                                                          *)
(* ===================================================================== *)

(** Unfolds the monadic plumbing so that a method applied to a world
    computes. *)
Ltac run_method :=
  cbv [set_config open close start_stream stop_stream flush capture capabilities
       read VideoCapture_new VideoCapture_set VideoCapture_set_int
       VideoCapture_read VideoCapture_grab
       VideoCapture_release next_acquisition imwrite time_monotonic unpack_shape
       isOpened get_self modify_self log_call looping raise ret bind
       mbind mret M_bind M_ret
       set_capture set_is_open set_is_streaming set_current_config
       is_open is_streaming current_config lifecycle];
  cbn [self acquisitions clock_reads native_log
       _device_index _capture _is_open _is_streaming _current_config
       vc_opened vc_index fst snd].

Ltac destruct_world w :=
  let o := fresh "o" in
  let idx := fresh "idx" in
  let cap := fresh "cap" in
  let opn := fresh "opn" in
  let str := fresh "str" in
  let cfg := fresh "cfg" in
  destruct w as [o ? ? ?]; destruct o as [idx cap opn str cfg].

(** ** stop_stream *)

Lemma stop_stream_eq (w : World) :
  stop_stream w =
  (Returned tt,
   {| self := set_is_streaming false (self w); acquisitions := acquisitions w;
      clock_reads := clock_reads w; native_log := native_log w |}).
Proof. reflexivity. Qed.

(** C9: [stop_stream] returns normally from every state, the three
    lifecycle states included; afterwards the streaming flag is false,
    nothing else of the driver has changed and no native call was made.
    A closed backend stays closed, an idle one idle, a streaming one
    becomes idle. *)
Theorem stop_stream_total (w : World) :
  exists w',
    stop_stream w = (Returned tt, w') /\
    is_streaming w' = false /\
    is_open w' = is_open w /\
    _capture (self w') = _capture (self w) /\
    current_config w' = current_config w /\
    native_log w' = native_log w /\
    lifecycle w' = match lifecycle w with
                   | Closed => Closed
                   | OpenIdle | OpenStreaming => OpenIdle
                   end.
Proof.
  eexists. split; [apply stop_stream_eq |].
  destruct_world w. run_method.
  repeat split; destruct opn, str; reflexivity.
Qed.

(** ** close *)

Lemma close_eq (w : World) :
  close w =
  (Returned tt,
   {| self := {| _device_index := _device_index (self w); _capture := None;
                 _is_open := false; _is_streaming := false;
                 _current_config := _current_config (self w) |};
      acquisitions := acquisitions w;
      clock_reads := clock_reads w;
      native_log := match _capture (self w) with
                    | Some _ => NRelease :: native_log w
                    | None => native_log w
                    end |}).
Proof. destruct_world w. destruct cap; reflexivity. Qed.

Lemma close_again (w : World) : close (snd (close w)) = (Returned tt, snd (close w)).
Proof. rewrite (close_eq w). reflexivity. Qed.

Lemma close_times_after_close (n : nat) (w : World) :
  close_times n (snd (close w)) = (repeat (Returned tt) n, snd (close w)).
Proof.
  induction n as [| n IH]; simpl; [reflexivity |].
  rewrite close_again, IH. reflexivity.
Qed.

(** C6: [close] called one or more times in a row, from any state, never
    raises; the result is that of a single [close]: the lifecycle is
    [Closed], the handle is gone (released once if there was one), the
    streaming flag is false, and one more [close] changes nothing. *)
Theorem close_any_number_of_times (n : nat) (w : World) :
  exists w',
    close_times (S n) w = (repeat (Returned tt) (S n), w') /\
    w' = snd (close w) /\
    lifecycle w' = Closed /\
    is_open w' = false /\
    is_streaming w' = false /\
    _capture (self w') = None /\
    native_log w' = match _capture (self w) with
                    | Some _ => NRelease :: native_log w
                    | None => native_log w
                    end /\
    close w' = (Returned tt, w').
Proof.
  exists (snd (close w)). split.
  - cbn [close_times]. destruct (close w) as [r w1] eqn:E.
    assert (Hw1 : w1 = snd (close w)) by (rewrite E; reflexivity).
    assert (Hr : r = Returned tt) by (rewrite close_eq in E; congruence).
    rewrite Hw1, close_times_after_close, Hr. reflexivity.
  - split; [reflexivity |].
    split; [| split; [| split; [| split; [| split]]]];
      try (rewrite close_eq; reflexivity).
    apply close_again.
Qed.

(** ** set_config *)

Lemma set_config_with_handle (w : World) (cap : VideoCapture) (config : CameraConfig) :
  _capture (self w) = Some cap ->
  resolution_fits config = true ->
  set_config config w =
  (Returned config,
   {| self := set_current_config config (self w);
      acquisitions := acquisitions w;
      clock_reads := clock_reads w;
      native_log := NSet CAP_PROP_FPS (framerate config)
                    :: NSet CAP_PROP_FRAME_HEIGHT
                            (round_double (inject_Z (height (resolution config))))
                    :: NSet CAP_PROP_FRAME_WIDTH
                            (round_double (inject_Z (width (resolution config))))
                    :: native_log w |}).
Proof.
  destruct_world w. cbn [self _capture]. intros -> Hfit.
  apply andb_true_iff in Hfit as [Hw Hh].
  unfold set_config, VideoCapture_set_int. cbv [mbind M_bind bind get_self].
  cbn [self _capture]. rewrite Hw, Hh. reflexivity.
Qed.

(** What [set_config] does when width or height is beyond the double
    range: [OverflowError], with the driver object untouched; the width
    has been sent to the device when only the height is at fault. *)
Lemma set_config_overflow (w : World) (cap : VideoCapture) (config : CameraConfig) :
  _capture (self w) = Some cap ->
  resolution_fits config = false ->
  set_config config w =
  (Raised OverflowError,
   if fits_double (width (resolution config))
   then {| self := self w; acquisitions := acquisitions w;
           clock_reads := clock_reads w;
           native_log := NSet CAP_PROP_FRAME_WIDTH
                              (round_double (inject_Z (width (resolution config))))
                         :: native_log w |}
   else w).
Proof.
  destruct_world w. cbn [self _capture]. intros -> Hfit.
  unfold resolution_fits in Hfit.
  unfold set_config, VideoCapture_set_int. cbv [mbind M_bind bind get_self].
  cbn [self _capture].
  destruct (fits_double (width (resolution config))); cbn [andb] in Hfit;
    [rewrite Hfit |]; reflexivity.
Qed.

Lemma set_config_self (w : World) (config : CameraConfig) :
  self (snd (set_config config w)) = self w \/
  (resolution_fits config = true /\
   self (snd (set_config config w)) = set_current_config config (self w)).
Proof.
  destruct (_capture (self w)) as [cap |] eqn:Hcap.
  - destruct (resolution_fits config) eqn:Hfit.
    + right. split; [reflexivity |].
      rewrite (set_config_with_handle w cap config Hcap Hfit). reflexivity.
    + left. rewrite (set_config_overflow w cap config Hcap Hfit).
      destruct (fits_double _); reflexivity.
  - left. destruct_world w. cbn [self _capture] in Hcap. subst. reflexivity.
Qed.

Lemma set_config_without_handle (w : World) (config : CameraConfig) :
  _capture (self w) = None ->
  set_config config w = (Raised CameraStateError, w).
Proof.
  destruct_world w. cbn [self _capture]. intros ->. reflexivity.
Qed.

(** C5: when [set_config req] returns [applied], [current_config] is
    [applied], and [set_config applied] on the resulting backend returns
    [applied] again and leaves the driver object as it was. *)
Theorem set_config_fixed_point (w w' : World) (req applied : CameraConfig) :
  set_config req w = (Returned applied, w') ->
  current_config w' = applied /\
  exists w'',
    set_config applied w' = (Returned applied, w'') /\
    current_config w'' = applied /\
    self w'' = self w'.
Proof.
  intros H.
  destruct (_capture (self w)) as [cap |] eqn:Hcap.
  - destruct (resolution_fits req) eqn:Hfit.
    + rewrite (set_config_with_handle w cap req Hcap Hfit) in H.
      injection H as <- <-.
      split; [reflexivity |].
      eexists. split.
      * apply (set_config_with_handle _ cap); [exact Hcap | exact Hfit].
      * split; reflexivity.
    + rewrite (set_config_overflow w cap req Hcap Hfit) in H. discriminate.
  - rewrite (set_config_without_handle w req Hcap) in H. discriminate.
Qed.

(** ** What every reachable world satisfies *)

Lemma next_acquisition_self (env : Env) (cap : VideoCapture) (w : World) :
  self (snd (next_acquisition env cap w)) = self w.
Proof. unfold next_acquisition. destruct (vc_opened cap); reflexivity. Qed.

Lemma VideoCapture_read_self (env : Env) (cap : VideoCapture) (w : World) :
  self (snd (VideoCapture_read env cap w)) = self w.
Proof. run_method. destruct (vc_opened cap); reflexivity. Qed.

Lemma read_loop_self (env : Env) (cap : VideoCapture) (timeout : option Q) (st : Q)
      (fuel : nat) (w : World) :
  self (snd (read_loop env fuel cap timeout st w)) = self w.
Proof.
  revert w. induction fuel as [| fuel IH]; intros w; [reflexivity |].
  cbn [read_loop]. run_method.
  destruct (vc_opened cap).
  - destruct (source env (acquisitions w)) as [buf |].
    + destruct (shape buf) as [| h [| wd [| c [| ? ?]]]]; reflexivity.
    + destruct timeout as [t |].
      * destruct (Qgtb _ t); [reflexivity |]. rewrite IH. reflexivity.
      * rewrite IH. reflexivity.
  - destruct timeout as [t |].
    + destruct (Qgtb _ t); [reflexivity |]. rewrite IH. reflexivity.
    + rewrite IH. reflexivity.
Qed.

Lemma read_self (env : Env) (fuel : nat) (targ : option (option Q)) (w : World) :
  self (snd (read env fuel targ w)) = self w.
Proof.
  unfold read. cbv [mbind M_bind bind get_self].
  destruct (negb (_is_streaming (self w))); [reflexivity |].
  destruct (_capture (self w)) as [cap |]; [| reflexivity].
  cbv [time_monotonic]. rewrite read_loop_self. reflexivity.
Qed.

Lemma flush_self (env : Env) (w : World) : self (snd (flush env w)) = self w.
Proof.
  destruct_world w. destruct cap as [cap |]; [| reflexivity].
  run_method. destruct (vc_opened cap); reflexivity.
Qed.

Lemma capture_self (env : Env) (path : option string) (w : World) :
  self (snd (capture env path w)) = self w.
Proof.
  destruct_world w. run_method.
  destruct opn; [| reflexivity]. cbn [negb].
  destruct cap as [cap |]; [| reflexivity].
  destruct (vc_opened cap).
  - destruct (source env _) as [buf |]; [| reflexivity].
    destruct (shape buf) as [| h [| wd [| c [| ? ?]]]]; try reflexivity.
    destruct (path_given path) as [p |]; [| reflexivity].
    destruct (imwrite_raises env p buf); reflexivity.
  - reflexivity.
Qed.

Lemma capabilities_self (w : World) : self (snd (capabilities w)) = self w.
Proof. destruct_world w. destruct cap; reflexivity. Qed.

Lemma open_not_open_eq (env : Env) (config : option CameraConfig) (w : World) :
  is_open w = false ->
  open env config w =
  let cap := mkVideoCapture (_device_index (self w))
                            (device_present env (_device_index (self w))) in
  let w1 := {| self := set_capture (Some cap) (self w);
               acquisitions := acquisitions w; clock_reads := clock_reads w;
               native_log := NVideoCapture (_device_index (self w)) :: native_log w |} in
  if device_present env (_device_index (self w)) then
    match config with
    | Some cfg =>
        let r := set_config cfg
                   {| self := set_is_open true (self w1);
                      acquisitions := acquisitions w; clock_reads := clock_reads w;
                      native_log := native_log w1 |} in
        (match fst r with
         | Returned _ => Returned tt
         | Raised e => Raised e
         | Looping => Looping
         end, snd r)
    | None =>
        (Returned tt,
         {| self := set_current_config CameraConfig_default (set_is_open true (self w1));
            acquisitions := acquisitions w; clock_reads := clock_reads w;
            native_log := native_log w1 |})
    end
  else (Raised CameraOpenError, w1).
Proof.
  destruct_world w. unfold is_open. cbn [self _is_open]. intros ->.
  cbv zeta. cbn [self _device_index].
  unfold open. cbv [mbind M_bind bind get_self VideoCapture_new log_call modify_self
                    mret M_ret ret isOpened raise].
  cbn [self _is_open _device_index vc_opened acquisitions clock_reads native_log].
  destruct (device_present env idx); cbn [negb]; [| reflexivity].
  destruct config as [c0 |]; [| reflexivity].
  destruct (set_config c0 _) as [[a | e |] w3]; reflexivity.
Qed.

Lemma coherent_after (env : Env) (c : Call) (w : World) :
  coherent (self w) -> coherent (self (after env c w)).
Proof.
  intros Hc. destruct c; cbn [after].
  - (* open *)
    destruct (is_open w) eqn:Ho.
    + destruct_world w. unfold is_open in Ho. cbn in Ho. subst opn. exact Hc.
    + rewrite (open_not_open_eq env config w Ho). cbv zeta.
      destruct_world w. unfold is_open in Ho. cbn in Ho. subst opn.
      unfold coherent in *. cbn in Hc. cbn [self _device_index].
      destruct (device_present env idx) eqn:Hdev.
      * destruct config as [c0 |].
        -- cbn [snd].
           destruct (set_config_self
                       {| self := set_is_open true
                                    (set_capture (Some (mkVideoCapture idx true))
                                       (mkOpenCVCamera idx cap false str cfg));
                          acquisitions := acquisitions0; clock_reads := clock_reads0;
                          native_log := NVideoCapture idx :: native_log0 |} c0)
             as [E | [_ E]]; cbn [self acquisitions clock_reads native_log] in *;
             rewrite E; cbn;
             (split; [reflexivity | intros _; eexists; split; reflexivity]).
        -- cbn. split; [reflexivity | intros _; eexists; split; reflexivity].
      * cbn. split; [apply Hc | discriminate].
  - (* close *)
    rewrite close_eq. split; cbn; discriminate.
  - (* start_stream *)
    destruct_world w. unfold coherent in *. cbn [self] in *.
    run_method. destruct opn; cbn; [| exact Hc].
    split; [reflexivity | apply Hc].
  - (* stop_stream *)
    destruct_world w. unfold coherent in *. cbn in *.
    split; [discriminate | apply Hc].
  - rewrite read_self. exact Hc.
  - rewrite flush_self. exact Hc.
  - rewrite capture_self. exact Hc.
  - (* set_config *)
    destruct (_capture (self w)) as [cap |] eqn:Hcap.
    + destruct (set_config_self w config) as [E | [_ E]]; rewrite E;
        [exact Hc |]. destruct_world w. exact Hc.
    + rewrite (set_config_without_handle w config Hcap). exact Hc.
  - rewrite capabilities_self. exact Hc.
Qed.

Lemma reachable_coherent (w : World) : reachable w -> coherent (self w).
Proof.
  induction 1 as [idx | env c w _ IH].
  - split; cbn; discriminate.
  - apply coherent_after. exact IH.
Qed.

(** ** read outside streaming *)

Lemma read_not_streaming (env : Env) (fuel : nat) (targ : option (option Q)) (w : World) :
  is_streaming w = false ->
  read env fuel targ w = (Raised CameraStateError, w).
Proof.
  unfold is_streaming, read. cbv [mbind M_bind bind get_self].
  intros ->. reflexivity.
Qed.

(** C7: in every reachable state other than Open(streaming), [read]
    raises [CameraStateError] at once, whatever the timeout argument and
    however many iterations its loop would be allowed: the world,
    with its log of native calls and its count of clock readings, is left
    exactly as it was, so the capture primitive is not tried and no
    timeout is signalled. *)
Theorem read_outside_streaming_is_state_error
        (env : Env) (fuel : nat) (targ : option (option Q)) (w : World) :
  reachable w ->
  lifecycle w <> OpenStreaming ->
  read env fuel targ w = (Raised CameraStateError, w).
Proof.
  intros Hr Hl. apply read_not_streaming.
  destruct (reachable_coherent w Hr) as [Hso _].
  unfold lifecycle, is_open, is_streaming in *.
  destruct (_is_streaming (self w)); [| reflexivity].
  rewrite (Hso eq_refl) in Hl. contradiction.
Qed.

(** ** Frames and the shape of the captured buffer *)

Lemma unpack_shape_returns (buf : ndarray) (h wd c : Z) (w w' : World) :
  unpack_shape buf w = (Returned (h, wd, c), w') ->
  shape buf = [h; wd; c] /\ w' = w.
Proof.
  unfold unpack_shape.
  destruct (shape buf) as [| h0 [| wd0 [| c0 [| ? ?]]]]; cbv [raise mret M_ret ret];
    intros H; try discriminate H.
  injection H as -> -> -> ->. split; reflexivity.
Qed.

Lemma read_loop_returns_three_dimensional
      (env : Env) (cap : VideoCapture) (timeout : option Q) (st : Q)
      (fuel : nat) (w w' : World) (f : Frame) :
  read_loop env fuel cap timeout st w = (Returned f, w') ->
  shape (data f) = [frame_height f; frame_width f; channels f].
Proof.
  revert w. induction fuel as [| fuel IH]; intros w; [discriminate |].
  cbn [read_loop]. cbv [mbind M_bind bind].
  destruct (VideoCapture_read env cap w) as [[[buf |] | e |] w1]; try discriminate.
  - destruct (unpack_shape buf w1) as [[[[h wd] c] | e |] w2] eqn:Eu; try discriminate.
    apply unpack_shape_returns in Eu as [Hs _].
    cbv [time_monotonic mret M_ret ret]. intros H. injection H as <- _. exact Hs.
  - destruct timeout as [t |]; [| apply IH].
    cbv [time_monotonic]. destruct (Qgtb _ t); [discriminate | apply IH].
Qed.

Lemma read_returns_three_dimensional
      (env : Env) (fuel : nat) (targ : option (option Q)) (w w' : World) (f : Frame) :
  read env fuel targ w = (Returned f, w') ->
  shape (data f) = [frame_height f; frame_width f; channels f].
Proof.
  unfold read. cbv [mbind M_bind bind get_self].
  destruct (negb (_is_streaming (self w))); [discriminate |].
  destruct (_capture (self w)) as [cap |]; [| discriminate].
  cbv [time_monotonic]. apply read_loop_returns_three_dimensional.
Qed.

Lemma capture_returns_three_dimensional
      (env : Env) (path : option string) (w w' : World) (f : Frame) :
  capture env path w = (Returned f, w') ->
  shape (data f) = [frame_height f; frame_width f; channels f].
Proof.
  unfold capture. cbv [mbind M_bind bind get_self].
  destruct (negb (_is_open (self w))); [discriminate |].
  destruct (_capture (self w)) as [cap |]; [| discriminate].
  destruct (VideoCapture_read env cap w) as [[[buf |] | e |] w1]; try discriminate.
  destruct (unpack_shape buf w1) as [[[[h wd] c] | e |] w2] eqn:Eu; try discriminate.
  apply unpack_shape_returns in Eu as [Hs _].
  cbv [time_monotonic].
  destruct (path_given path) as [p |];
    cbv [imwrite log_call mbind M_bind bind mret M_ret ret raise];
    [destruct (imwrite_raises env p buf); [discriminate |] |];
    intros H; injection H as <- _; exact Hs.
Qed.

Lemma VideoCapture_read_eq (env : Env) (cap : VideoCapture) (w : World) :
  VideoCapture_read env cap w =
  (Returned (if vc_opened cap then source env (acquisitions w) else None),
   after_native_read cap w).
Proof.
  unfold after_native_read. run_method. destruct (vc_opened cap); reflexivity.
Qed.

Lemma read_streaming_eq (env : Env) (fuel : nat) (targ : option (option Q))
      (cap : VideoCapture) (w : World) :
  is_streaming w = true ->
  _capture (self w) = Some cap ->
  read env fuel targ w =
  read_loop env fuel cap (default read_default_timeout targ)
            (monotonic env (clock_reads w)) (ticked w).
Proof.
  unfold is_streaming, read. cbv [mbind M_bind bind get_self time_monotonic].
  intros -> ->. reflexivity.
Qed.

Lemma read_loop_step (env : Env) (fuel : nat) (cap : VideoCapture)
      (timeout : option Q) (st : Q) (w : World) :
  read_loop env (S fuel) cap timeout st w =
  let w1 := after_native_read cap w in
  match (if vc_opened cap then source env (acquisitions w) else None) with
  | Some frame =>
      match shape frame with
      | [h; wd; c] =>
          (Returned (mkFrame frame wd h c "BGR" (monotonic env (clock_reads w))),
           ticked w1)
      | _ => (Raised ValueError, w1)
      end
  | None =>
      match timeout with
      | None => read_loop env fuel cap timeout st w1
      | Some t =>
          if Qgtb (float_sub env (monotonic env (clock_reads w)) st) t
          then (Raised CameraTimeout, ticked w1)
          else read_loop env fuel cap timeout st (ticked w1)
      end
  end.
Proof.
  cbn [read_loop]. cbv [mbind M_bind bind]. rewrite VideoCapture_read_eq.
  cbv zeta.
  destruct (if vc_opened cap then source env (acquisitions w) else None) as [buf |].
  - unfold unpack_shape.
    destruct (shape buf) as [| h [| wd [| c [| ? ?]]]]; reflexivity.
  - destruct timeout as [t |]; [| reflexivity].
    cbv [time_monotonic raise]. cbn [clock_reads after_native_read].
    destruct (Qgtb _ t); reflexivity.
Qed.

(** C10: when the acquisition succeeds with buffer [buf], [read] (while
    streaming) and [capture] (while open) return a frame exactly when the
    shape of [buf] has three components, which become height, width and
    channels; for a shape of any other length both raise [ValueError],
    which is none of the camera errors.  The same holds for the loop of
    [read] at any of its iterations.  [capture] with a path on which
    [cv2.imwrite] raises built the frame from a three-component shape
    but ends in [cv2.error], no camera error either.  Whatever frame
    [read] or [capture] returns carries a buffer with a three-component
    shape. *)
Theorem frame_requires_three_dimensional_buffer
        (env : Env) (w : World) (cap : VideoCapture) (buf : ndarray)
        (fuel : nat) (targ : option (option Q)) (path : option string) :
  _capture (self w) = Some cap ->
  vc_opened cap = true ->
  source env (acquisitions w) = Some buf ->
  is_CameraError ValueError = false /\
  (forall (timeout : option Q) (start_time : Q),
   match shape buf with
   | [h; wd; c] =>
       fst (read_loop env (S fuel) cap timeout start_time w) =
       Returned (mkFrame buf wd h c "BGR" (monotonic env (clock_reads w)))
   | _ => fst (read_loop env (S fuel) cap timeout start_time w) = Raised ValueError
   end) /\
  (is_streaming w = true ->
   match shape buf with
   | [h; wd; c] =>
       fst (read env (S fuel) targ w) =
       Returned (mkFrame buf wd h c "BGR" (monotonic env (S (clock_reads w))))
   | _ => fst (read env (S fuel) targ w) = Raised ValueError
   end) /\
  (is_open w = true ->
   match shape buf with
   | [h; wd; c] =>
       fst (capture env path w) =
       match path_given path with
       | Some p =>
           if imwrite_raises env p buf then Raised cv2_error
           else Returned (mkFrame buf wd h c "BGR" (monotonic env (clock_reads w)))
       | None => Returned (mkFrame buf wd h c "BGR" (monotonic env (clock_reads w)))
       end
   | _ => fst (capture env path w) = Raised ValueError
   end) /\
  is_CameraError cv2_error = false /\
  (forall f : Frame,
      fst (read env (S fuel) targ w) = Returned f \/
      fst (capture env path w) = Returned f ->
      shape (data f) = [frame_height f; frame_width f; channels f]).
Proof.
  intros Hcap Hop Hsrc. split; [reflexivity |].
  split; [| split; [| split; [| split; [reflexivity |]]]].
  - intros timeout st. rewrite read_loop_step. cbv zeta. rewrite Hop, Hsrc.
    destruct (shape buf) as [| h [| wd [| c [| ? ?]]]]; reflexivity.
  - intros Hs. rewrite (read_streaming_eq env (S fuel) targ cap w Hs Hcap).
    rewrite read_loop_step. cbv zeta. rewrite Hop. cbn [ticked acquisitions clock_reads].
    rewrite Hsrc.
    destruct (shape buf) as [| h [| wd [| c [| ? ?]]]]; reflexivity.
  - intros Ho. unfold is_open in Ho. unfold capture.
    cbv [mbind M_bind bind get_self]. rewrite Ho, Hcap. cbn [negb].
    rewrite VideoCapture_read_eq, Hop, Hsrc. unfold unpack_shape.
    destruct (shape buf) as [| h [| wd [| c [| ? ?]]]]; try reflexivity.
    cbv [mbind M_bind bind mret M_ret ret raise time_monotonic imwrite log_call].
    destruct (path_given path) as [p |]; [| reflexivity].
    destruct (imwrite_raises env p buf); reflexivity.
  - intros f [H | H].
    + destruct (read env (S fuel) targ w) as [r w'] eqn:E. cbn in H. subst r.
      exact (read_returns_three_dimensional _ _ _ _ _ _ E).
    + destruct (capture env path w) as [r w'] eqn:E. cbn in H. subst r.
      exact (capture_returns_three_dimensional _ _ _ _ _ E).
Qed.

(** ** read against a source that never produces a frame *)

Lemma Qgtb_true (a b : Q) : Qgtb a b = true <-> (b < a)%Q.
Proof.
  unfold Qgtb. rewrite negb_true_iff. split.
  - intros H. apply Qnot_le_lt. intros Hle.
    apply Qle_bool_iff in Hle. congruence.
  - intros H. destruct (Qle_bool a b) eqn:E; [| reflexivity].
    apply Qle_bool_iff in E. exfalso. exact (Qlt_not_le _ _ H E).
Qed.

Lemma count_reads_NRead (l : list NativeCall) :
  count_reads (NRead :: l) = S (count_reads l).
Proof. reflexivity. Qed.

Section ReadLoop.
Variable env : Env.
Variable cap : VideoCapture.

Lemma acquisition_fails (w : World) :
  source env (acquisitions w) = None ->
  (if vc_opened cap then source env (acquisitions w) else None) = None.
Proof. intros H. destruct (vc_opened cap); [exact H | reflexivity]. Qed.

Lemma acquisitions_after_native_read (w : World) :
  acquisitions (after_native_read cap w) = acquisitions w \/
  acquisitions (after_native_read cap w) = S (acquisitions w).
Proof. unfold after_native_read. destruct (vc_opened cap); cbn; tauto. Qed.

(** As long as the device delivers nothing and the timeout test (if a
    timeout is in force) fails, the loop keeps running: after [fuel]
    iterations it has tried the capture primitive [fuel] times and has
    not left. *)
Lemma read_loop_keeps_looping (timeout : option Q) (st : Q) (fuel : nat) :
  forall w : World,
    (forall i : nat, (i < fuel)%nat -> source env (acquisitions w + i) = None) ->
    (forall t : Q, timeout = Some t ->
     forall i : nat, (i < fuel)%nat ->
       Qgtb (float_sub env (monotonic env (clock_reads w + i)) st) t = false) ->
    exists w',
      read_loop env fuel cap timeout st w = (Looping, w') /\
      self w' = self w /\
      count_reads (native_log w') = (fuel + count_reads (native_log w))%nat.
Proof.
  induction fuel as [| fuel IH]; intros w Hsrc Hclk.
  - exists w. repeat split; reflexivity.
  - rewrite read_loop_step. cbv zeta.
    rewrite acquisition_fails
      by (specialize (Hsrc 0%nat ltac:(lia)); rewrite Nat.add_0_r in Hsrc; exact Hsrc).
    assert (Hsrc1 : forall i : nat, (i < fuel)%nat ->
               source env (acquisitions (after_native_read cap w) + i) = None).
    { intros i Hi. destruct (acquisitions_after_native_read w) as [-> | ->].
      - apply Hsrc. lia.
      - replace (S (acquisitions w) + i)%nat with (acquisitions w + S i)%nat by lia.
        apply Hsrc. lia. }
    destruct timeout as [t |].
    + assert (H0 := Hclk t eq_refl 0%nat ltac:(lia)).
      rewrite Nat.add_0_r in H0. rewrite H0.
      destruct (IH (ticked (after_native_read cap w))) as (w' & E & Hs & Hn).
      * exact Hsrc1.
      * intros t0 Ht0 i Hi. cbn [ticked after_native_read clock_reads].
        replace (S (clock_reads w) + i)%nat with (clock_reads w + S i)%nat by lia.
        apply (Hclk t0 Ht0). lia.
      * exists w'. split; [exact E |]. split; [exact Hs |].
        rewrite Hn. cbn [ticked after_native_read native_log].
        rewrite count_reads_NRead. lia.
    + destruct (IH (after_native_read cap w)) as (w' & E & Hs & Hn).
      * exact Hsrc1.
      * intros t0 Ht0. discriminate Ht0.
      * exists w'. split; [exact E |]. split; [exact Hs |].
        rewrite Hn. cbn [after_native_read native_log].
        rewrite count_reads_NRead. lia.
Qed.

(** With a timeout [t] the loop raises [CameraTimeout] in the first
    iteration whose timeout test succeeds, the device having delivered
    nothing up to then. *)
Lemma read_loop_times_out_at (t st : Q) (k extra : nat) :
  forall w : World,
    (forall i : nat, (i <= k)%nat -> source env (acquisitions w + i) = None) ->
    (forall i : nat, (i < k)%nat ->
       Qgtb (float_sub env (monotonic env (clock_reads w + i)) st) t = false) ->
    Qgtb (float_sub env (monotonic env (clock_reads w + k)) st) t = true ->
    exists w',
      read_loop env (S k + extra) cap (Some t) st w = (Raised CameraTimeout, w') /\
      self w' = self w /\
      clock_reads w' = (clock_reads w + S k)%nat /\
      count_reads (native_log w') = (S k + count_reads (native_log w))%nat.
Proof.
  induction k as [| k IH]; intros w Hsrc Hlt Hk.
  - cbn [Nat.add]. rewrite read_loop_step. cbv zeta.
    rewrite acquisition_fails
      by (specialize (Hsrc 0%nat ltac:(lia)); rewrite Nat.add_0_r in Hsrc; exact Hsrc).
    rewrite Nat.add_0_r in Hk. rewrite Hk.
    eexists. split; [reflexivity |].
    cbn [ticked after_native_read self clock_reads native_log].
    rewrite count_reads_NRead. repeat split; lia.
  - cbn [Nat.add]. rewrite read_loop_step. cbv zeta.
    rewrite acquisition_fails
      by (specialize (Hsrc 0%nat ltac:(lia)); rewrite Nat.add_0_r in Hsrc; exact Hsrc).
    assert (H0 := Hlt 0%nat ltac:(lia)).
    rewrite Nat.add_0_r in H0. rewrite H0.
    destruct (IH (ticked (after_native_read cap w))) as (w' & E & Hs & Hc & Hn).
    + intros i Hi. cbn [ticked acquisitions].
      destruct (acquisitions_after_native_read w) as [-> | ->].
      * apply Hsrc. lia.
      * replace (S (acquisitions w) + i)%nat with (acquisitions w + S i)%nat by lia.
        apply Hsrc. lia.
    + intros i Hi. cbn [ticked after_native_read clock_reads].
      replace (S (clock_reads w) + i)%nat with (clock_reads w + S i)%nat by lia.
      apply Hlt. lia.
    + cbn [ticked after_native_read clock_reads].
      replace (S (clock_reads w) + k)%nat with (clock_reads w + S k)%nat by lia.
      exact Hk.
    + exists w'. split; [exact E |]. split; [exact Hs |].
      rewrite Hc, Hn. cbn [ticked after_native_read clock_reads native_log].
      rewrite count_reads_NRead. split; lia.
Qed.
End ReadLoop.

(** C2 (amended): against a source that never produces a frame, a
    streaming backend's [read] with an explicit [timeout=None] never
    leaves its loop, however many iterations it is given, each iteration
    retrying the capture primitive, and so never signals a timeout.  With
    the timeout argument not supplied, [read] is [read(timeout=2.0)]: it
    keeps retrying as long as the elapsed time it computes from the
    clock does not exceed 2.0 seconds, and raises [CameraTimeout] in the
    first iteration in which it does, after one call of the capture
    primitive per iteration; if the elapsed time never exceeds 2.0
    seconds it never leaves the loop either. *)
Theorem read_blocks_only_with_explicit_null_timeout
        (env : Env) (w : World) (cap : VideoCapture) :
  is_streaming w = true ->
  _capture (self w) = Some cap ->
  (forall k : nat, source env k = None) ->
  (forall fuel : nat,
      exists w',
        read env fuel (Some None) w = (Looping, w') /\
        self w' = self w /\
        count_reads (native_log w') = (fuel + count_reads (native_log w))%nat) /\
  (forall fuel : nat,
      read env fuel None w = read env fuel (Some (Some (2 # 1))) w) /\
  (forall k : nat,
      (forall i : nat, (i < k)%nat ->
         timeout_exceeded env (2 # 1) (clock_reads w) i = false) ->
      timeout_exceeded env (2 # 1) (clock_reads w) k = true ->
      (forall fuel : nat, (fuel <= k)%nat ->
         exists w', read env fuel None w = (Looping, w')) /\
      (forall extra : nat,
         exists w',
           read env (S k + extra) None w = (Raised CameraTimeout, w') /\
           self w' = self w /\
           clock_reads w' = (clock_reads w + S (S k))%nat /\
           count_reads (native_log w') = (S k + count_reads (native_log w))%nat)) /\
  ((forall i : nat, timeout_exceeded env (2 # 1) (clock_reads w) i = false) ->
   forall fuel : nat, exists w', read env fuel None w = (Looping, w')).
Proof.
  intros Hs Hcap Hsilent. split; [| split; [| split]].
  - intros fuel. rewrite (read_streaming_eq env fuel _ cap w Hs Hcap).
    destruct (read_loop_keeps_looping env cap None
                (monotonic env (clock_reads w)) fuel (ticked w))
      as (w' & E & Hself & Hn).
    + intros i _. apply Hsilent.
    + intros t Ht. discriminate Ht.
    + exists w'. split; [exact E |]. split; [exact Hself | exact Hn].
  - intros fuel. reflexivity.
  - intros k Hlt Hk. split.
    + intros fuel Hfuel. rewrite (read_streaming_eq env fuel _ cap w Hs Hcap).
      destruct (read_loop_keeps_looping env cap (Some (2 # 1))
                  (monotonic env (clock_reads w)) fuel (ticked w))
        as (w' & E & _).
      * intros i _. apply Hsilent.
      * intros t Ht i Hi. injection Ht as <-. apply (Hlt i). lia.
      * exists w'. exact E.
    + intros extra. rewrite (read_streaming_eq env _ _ cap w Hs Hcap).
      destruct (read_loop_times_out_at env cap (2 # 1)
                  (monotonic env (clock_reads w)) k extra (ticked w))
        as (w' & E & Hself & Hc & Hn).
      * intros i _. apply Hsilent.
      * exact Hlt.
      * exact Hk.
      * exists w'. split; [exact E |]. split; [exact Hself |].
        split; [rewrite Hc; cbn [ticked clock_reads]; lia | exact Hn].
  - intros Hnever fuel. rewrite (read_streaming_eq env fuel _ cap w Hs Hcap).
    destruct (read_loop_keeps_looping env cap (Some (2 # 1))
                (monotonic env (clock_reads w)) fuel (ticked w))
      as (w' & E & _).
    + intros i _. apply Hsilent.
    + intros t Ht i Hi. injection Ht as <-. apply (Hnever i).
    + exists w'. exact E.
Qed.

(** ** The selector *)



(** ** set_config and the handle left by a failed open *)

(** C1: on an open backend whose own [capabilities()] report no region of
    interest, no manual exposure and three fixed resolutions, [set_config]
    given [example_request] (rotation, flip, manual exposure, a region of
    interest, 641x479) returns that very request and stores it as
    [current_config]; the only native calls it made set width, height and
    frame rate. *)
Theorem set_config_echoes_unsupported_request :
  let w := world_open_idle env_silent_camera in
  let r := set_config example_request w in
  lifecycle w = OpenIdle /\
  (exists caps,
      fst (capabilities w) = Returned caps /\
      roi_supported caps = false /\
      exposure_manual (controls caps) = false /\
      resolutions caps = [(640, 480); (1280, 720); (1920, 1080)]) /\
  roi_norm example_request = Some (0 # 1, 0 # 1, 1 # 2, 1 # 2)%Q /\
  fst r = Returned example_request /\
  current_config (snd r) = example_request /\
  native_log (snd r) =
    [NSet CAP_PROP_FPS (30 # 1); NSet CAP_PROP_FRAME_HEIGHT (479 # 1);
     NSet CAP_PROP_FRAME_WIDTH (641 # 1); NVideoCapture 0].
Proof.
  cbv zeta. split; [reflexivity |]. split.
  - eexists. split; [reflexivity |]. repeat split; reflexivity.
  - repeat split; reflexivity.
Qed.

(** C3: after [open()] has raised [CameraOpenError] the backend is not
    open, yet [set_config] does not raise: it returns the request and
    replaces [current_config], which was the default, by it. *)
Theorem set_config_after_failed_open_returns :
  let w := world_after_failed_open in
  let r := set_config example_request w in
  fst (open env_no_device None (fresh_world 0)) = Raised CameraOpenError /\
  reachable w /\
  is_open w = false /\
  _capture (self w) = Some {| vc_index := 0; vc_opened := false |} /\
  current_config w = CameraConfig_default /\
  fst r = Returned example_request /\
  current_config (snd r) = example_request.
Proof.
  cbv zeta. split; [reflexivity |]. split.
  - apply reach_call, reach_fresh.
  - repeat split; reflexivity.
Qed.

(** C4: a failed [open()] raises [CameraOpenError] and leaves the
    lifecycle [Closed], but the unopened handle stays in [_capture]: where
    a never-opened backend raises [CameraStateError] from [set_config]
    and [capabilities] and makes no native call in [flush], the backend
    after the failed open returns from both and issues five [grab] calls;
    [capture] raises [CameraStateError] on both. *)
Theorem failed_open_differs_from_never_opened :
  let env := env_no_device in
  let w0 := fresh_world 0 in
  let w := world_after_failed_open in
  fst (open env None w0) = Raised CameraOpenError /\
  lifecycle w = Closed /\ lifecycle w0 = Closed /\
  _capture (self w0) = None /\
  _capture (self w) = Some {| vc_index := 0; vc_opened := false |} /\
  fst (set_config example_request w0) = Raised CameraStateError /\
  fst (set_config example_request w) = Returned example_request /\
  fst (capabilities w0) = Raised CameraStateError /\
  (exists caps, fst (capabilities w) = Returned caps) /\
  native_log (snd (flush env w0)) = native_log w0 /\
  native_log (snd (flush env w)) =
    [NGrab; NGrab; NGrab; NGrab; NGrab] ++ native_log w /\
  fst (capture env None w0) = Raised CameraStateError /\
  fst (capture env None w) = Raised CameraStateError.
Proof.
  cbv zeta. repeat split; try reflexivity.
  eexists. reflexivity.
Qed.

(** ** Concrete runs *)

(** C2, as stated, fails: against a camera that never delivers a frame,
    a streaming backend's [read()] with the timeout argument not supplied
    raises [CameraTimeout] in its third iteration. *)
Lemma read_without_timeout_argument_times_out :
  (forall k : nat, source env_silent_camera k = None) /\
  lifecycle (world_streaming env_silent_camera) = OpenStreaming /\
  fst (read env_silent_camera 3 None (world_streaming env_silent_camera))
  = Raised CameraTimeout.
Proof.
  split; [intros k; reflexivity |]. split; reflexivity.
Qed.

Lemma read_blocks_only_with_explicit_null_timeout_witness :
  (forall fuel : nat,
      exists w',
        read env_silent_camera fuel (Some None) (world_streaming env_silent_camera)
        = (Looping, w')) /\
  (forall fuel : nat, (fuel <= 2)%nat ->
      exists w',
        read env_silent_camera fuel None (world_streaming env_silent_camera)
        = (Looping, w')) /\
  (exists w',
      read env_silent_camera 3 None (world_streaming env_silent_camera)
      = (Raised CameraTimeout, w') /\
      count_reads (native_log w') = 3%nat).
Proof.
  destruct (read_blocks_only_with_explicit_null_timeout
              env_silent_camera (world_streaming env_silent_camera)
              {| vc_index := 0; vc_opened := true |}
              eq_refl eq_refl (fun k => eq_refl))
    as (H1 & _ & H3 & _).
  destruct (H3 2%nat) as [Hloop Hraise].
  - intros i Hi. destruct i as [| [| i]];
      [vm_compute; reflexivity | vm_compute; reflexivity | lia].
  - vm_compute. reflexivity.
  - split; [| split].
    + intros fuel. destruct (H1 fuel) as (w' & E & _). exists w'. exact E.
    + exact Hloop.
    + destruct (Hraise 0%nat) as (w' & E & _ & _ & Hn). exists w'.
      split; [exact E | exact Hn].
Defined.

(** The timeout test is made on doubles: with a start reading of
    0.9999999999999999 and a next reading of 3.0 the difference rounds
    to 2.0, which does not exceed the timeout of 2.0, although the exact
    difference does; [read()] goes on and times out at the next check. *)
Lemma timeout_test_rounds_like_doubles :
  let start := (1 - Qpow2 (-53))%Q in
  round_double start = start /\
  Qgtb (double_sub (3 # 1) start) (2 # 1) = false /\
  Qgtb ((3 # 1) - start) (2 # 1) = true /\
  fst (read env_late_clock 1 None (world_streaming env_late_clock)) = Looping /\
  fst (read env_late_clock 2 None (world_streaming env_late_clock))
  = Raised CameraTimeout.
Proof. vm_compute. repeat split. Qed.

(** [capture] with a path on which [cv2.imwrite] raises: the frame is
    built, the write is attempted, and [cv2.error] comes out, where the
    same call without a path returns the frame. *)
Lemma capture_with_unwritable_path_raises :
  let env := env_strict_writer bgr_buffer in
  let w := world_open_idle env in
  fst (capture env (Some "/tmp/snapshot"%string) w) = Raised cv2_error /\
  native_log (snd (capture env (Some "/tmp/snapshot"%string) w))
  = [NImwrite "/tmp/snapshot"; NRead; NVideoCapture 0] /\
  fst (capture env None w)
  = Returned (mkFrame bgr_buffer 640 480 3 "BGR" (one_second_clock 0)) /\
  fst (capture env (Some "/tmp/snapshot.jpg"%string) w)
  = Returned (mkFrame bgr_buffer 640 480 3 "BGR" (one_second_clock 0)).
Proof. vm_compute. repeat split. Qed.

Lemma set_config_fixed_point_witness :
  let w := world_open_idle env_silent_camera in
  let w' := snd (set_config example_request w) in
  set_config example_request w = (Returned example_request, w') /\
  current_config w' = example_request /\
  exists w'',
    set_config example_request w' = (Returned example_request, w'') /\
    current_config w'' = example_request /\
    self w'' = self w'.
Proof.
  cbv zeta. split; [reflexivity |].
  apply (set_config_fixed_point
           (world_open_idle env_silent_camera)
           (snd (set_config example_request (world_open_idle env_silent_camera)))
           example_request example_request).
  reflexivity.
Defined.

Lemma read_outside_streaming_is_state_error_witness :
  read env_silent_camera 7 (Some None) (world_open_idle env_silent_camera)
  = (Raised CameraStateError, world_open_idle env_silent_camera).
Proof.
  apply (read_outside_streaming_is_state_error
           env_silent_camera 7 (Some None) (world_open_idle env_silent_camera)).
  - apply reach_call, reach_fresh.
  - vm_compute. discriminate.
Defined.

Lemma frame_requires_three_dimensional_buffer_witness :
  let env := env_camera gray_buffer in
  let w := world_streaming env in
  is_CameraError ValueError = false /\
  (forall (timeout : option Q) (start_time : Q),
      fst (read_loop env 1 {| vc_index := 0; vc_opened := true |}
                     timeout start_time w) = Raised ValueError) /\
  (is_streaming w = true ->
   fst (read env 1 None w) = Raised ValueError) /\
  (is_open w = true ->
   fst (capture env None w) = Raised ValueError) /\
  is_CameraError cv2_error = false /\
  (forall f : Frame,
      fst (read env 1 None w) = Returned f \/
      fst (capture env None w) = Returned f ->
      shape (data f) = [frame_height f; frame_width f; channels f]).
Proof.
  cbv zeta.
  apply (frame_requires_three_dimensional_buffer
           (env_camera gray_buffer) (world_streaming (env_camera gray_buffer))
           {| vc_index := 0; vc_opened := true |} gray_buffer 0 None None).
  - reflexivity.
  - reflexivity.
  - reflexivity.
Defined.


(* ===================================================================== *)
(** * Further properties of the driver                                    *)
(* ===================================================================== *)

(** ** open and start_stream *)

(** [open] on an open backend returns at once: no device is acquired, a
    configuration passed along is not applied, and nothing changes. *)
Theorem open_when_open_does_nothing
        (env : Env) (config : option CameraConfig) (w : World) :
  is_open w = true ->
  open env config w = (Returned tt, w).
Proof.
  destruct_world w. unfold is_open. cbn [self _is_open]. intros ->.
  reflexivity.
Qed.


(** When the device does not answer, [open] on a backend that is not open
    raises [CameraOpenError]: the backend stays not open, a configuration
    passed along is neither sent to the device nor stored, and the one
    native call made is the attempt to acquire the device. *)
Theorem open_failure_leaves_flags_and_config
        (env : Env) (config : option CameraConfig) (w : World) :
  is_open w = false ->
  device_present env (_device_index (self w)) = false ->
  exists w',
    open env config w = (Raised CameraOpenError, w') /\
    is_open w' = false /\
    is_streaming w' = is_streaming w /\
    current_config w' = current_config w /\
    native_log w' = NVideoCapture (_device_index (self w)) :: native_log w.
Proof.
  intros Ho Hdev.
  rewrite (open_not_open_eq env config w Ho). cbv zeta. rewrite Hdev.
  eexists. split; [reflexivity |].
  destruct_world w. unfold is_open in Ho. cbn in Ho. subst opn.
  repeat split.
Qed.

(** [start_stream] raises [CameraStateError] and changes nothing when the
    backend is not open; when it is open the call returns, sets only the
    streaming flag and makes no native call. *)
Theorem start_stream_needs_open (w : World) :
  (is_open w = false -> start_stream w = (Raised CameraStateError, w)) /\
  (is_open w = true ->
   exists w',
     start_stream w = (Returned tt, w') /\
     lifecycle w' = OpenStreaming /\
     self w' = set_is_streaming true (self w) /\
     native_log w' = native_log w /\
     acquisitions w' = acquisitions w).
Proof.
  destruct_world w. unfold is_open. cbn [self _is_open]. split; intros ->.
  - reflexivity.
  - eexists. split; [reflexivity |]. repeat split.
Qed.

(** Starting and then stopping the stream of an idle open backend gives
    back the very same world, and starting twice is starting once. *)
Theorem start_then_stop_is_identity (w : World) :
  is_open w = true ->
  is_streaming w = false ->
  after_start_stop w = w /\
  snd (start_stream (snd (start_stream w))) = snd (start_stream w).
Proof.
  destruct_world w. unfold is_open, is_streaming, after_start_stop.
  cbn [self _is_open _is_streaming]. intros -> ->. split; reflexivity.
Qed.

(** ** After close *)

(** After [close()], from any state whatever, [set_config],
    [capabilities], [start_stream], [read] and [capture] raise
    [CameraStateError] and [flush] returns, none of them changing the
    world or reaching the native layer. *)
Theorem after_close_device_operations_are_refused
        (env : Env) (w : World) (config : CameraConfig) (fuel : nat)
        (targ : option (option Q)) (path : option string) :
  let wc := snd (close w) in
  set_config config wc = (Raised CameraStateError, wc) /\
  capabilities wc = (Raised CameraStateError, wc) /\
  start_stream wc = (Raised CameraStateError, wc) /\
  read env fuel targ wc = (Raised CameraStateError, wc) /\
  capture env path wc = (Raised CameraStateError, wc) /\
  flush env wc = (Returned tt, wc).
Proof.
  cbv zeta. rewrite close_eq. cbn [snd]. repeat split.
Qed.

(** ** capture *)

Lemma capture_open_eq (env : Env) (path : option string) (cap : VideoCapture)
      (w : World) :
  is_open w = true ->
  _capture (self w) = Some cap ->
  capture env path w =
  let w1 := after_native_read cap w in
  match (if vc_opened cap then source env (acquisitions w) else None) with
  | None => (Raised CameraTimeout, w1)
  | Some frame =>
      match shape frame with
      | [h; wd; c] =>
          let f := mkFrame frame wd h c "BGR" (monotonic env (clock_reads w)) in
          match path_given path with
          | Some p =>
              (if imwrite_raises env p frame then Raised cv2_error else Returned f,
               {| self := self w; acquisitions := acquisitions w1;
                  clock_reads := S (clock_reads w);
                  native_log := NImwrite p :: native_log w1 |})
          | None => (Returned f, ticked w1)
          end
      | _ => (Raised ValueError, w1)
      end
  end.
Proof.
  unfold is_open, capture. cbv [mbind M_bind bind get_self].
  intros -> ->. cbn [negb]. rewrite VideoCapture_read_eq. cbv zeta.
  destruct (if vc_opened cap then source env (acquisitions w) else None) as [buf |];
    [| reflexivity].
  unfold unpack_shape.
  destruct (shape buf) as [| h [| wd [| c [| ? ?]]]]; try reflexivity.
  cbv [mbind M_bind bind mret M_ret ret raise time_monotonic imwrite log_call].
  destruct (path_given path) as [p |]; [| reflexivity].
  destruct (imwrite_raises env p buf); reflexivity.
Qed.

(** [capture] on a backend that is not open raises [CameraStateError]
    without trying the capture primitive. *)
Theorem capture_needs_open (env : Env) (path : option string) (w : World) :
  is_open w = false ->
  capture env path w = (Raised CameraStateError, w).
Proof.
  unfold is_open, capture. cbv [mbind M_bind bind get_self].
  intros ->. reflexivity.
Qed.

(** On an open reachable backend whose device yields no frame at the
    next acquisition, [capture] raises [CameraTimeout] after a single
    attempt: it does not retry, does not read the clock, writes no file
    and leaves the driver object as it was. *)
Theorem capture_times_out_after_one_attempt
        (env : Env) (path : option string) (w : World) :
  reachable w ->
  is_open w = true ->
  source env (acquisitions w) = None ->
  exists w',
    capture env path w = (Raised CameraTimeout, w') /\
    self w' = self w /\
    native_log w' = NRead :: native_log w /\
    clock_reads w' = clock_reads w /\
    acquisitions w' = S (acquisitions w).
Proof.
  intros Hr Ho Hsrc.
  destruct (reachable_coherent w Hr) as [_ Hoc].
  destruct (Hoc Ho) as (cap & Hcap & Hop).
  rewrite (capture_open_eq env path cap w Ho Hcap). cbv zeta.
  rewrite Hop, Hsrc. eexists. split; [reflexivity |].
  unfold after_native_read. rewrite Hop. repeat split.
Qed.

(** [capture] depends on the path only through the write.  With no
    path ([None] or the empty string), or when [cv2.imwrite] does not
    raise, its outcome is that of [capture] without a path; when
    [cv2.imwrite] raises, [capture] raises [cv2.error] in place of
    returning the frame it had built.  The write is attempted exactly
    when a frame was built and the path is a non-empty string, and it is
    then the last native call. *)
Theorem capture_path_only_adds_the_write
        (env : Env) (path : option string) (w : World) :
  fst (capture env path w) =
  match fst (capture env None w), path_given path with
  | Returned f, Some p =>
      if imwrite_raises env p (data f) then Raised cv2_error else Returned f
  | r, _ => r
  end /\
  native_log (snd (capture env path w)) =
  match fst (capture env None w), path_given path with
  | Returned _, Some p => NImwrite p :: native_log (snd (capture env None w))
  | _, _ => native_log (snd (capture env None w))
  end.
Proof.
  destruct (is_open w) eqn:Ho.
  - destruct (_capture (self w)) as [cap |] eqn:Hcap.
    + rewrite !(capture_open_eq env _ cap w Ho Hcap). cbv zeta.
      destruct (if vc_opened cap then source env (acquisitions w) else None) as [buf |].
      * destruct (shape buf) as [| h [| wd [| c [| ? ?]]]];
          cbn; destruct (path_given path); split; reflexivity.
      * cbn. destruct (path_given path); split; reflexivity.
    + unfold is_open in Ho. unfold capture. cbv [mbind M_bind bind get_self].
      rewrite Ho, Hcap. cbn. destruct (path_given path); split; reflexivity.
  - rewrite !(capture_needs_open env _ w Ho). cbn.
    destruct (path_given path); split; reflexivity.
Qed.

Lemma capture_result_set_is_streaming
      (env : Env) (path : option string) (b : bool) (o : OpenCVCamera)
      (a k : nat) (l : list NativeCall) :
  fst (capture env path (mkWorld (set_is_streaming b o) a k l)) =
  fst (capture env path (mkWorld o a k l)).
Proof.
  destruct o as [idx cap opn str cfg].
  destruct opn; [| reflexivity].
  destruct cap as [c0 |]; [| reflexivity].
  etransitivity; [erewrite capture_open_eq by reflexivity; reflexivity |].
  erewrite capture_open_eq by reflexivity.
  cbv zeta. cbn [acquisitions clock_reads].
  destruct (if vc_opened c0 then source env a else None) as [buf |];
    [| reflexivity].
  destruct (shape buf) as [| h [| wd [| c [| ? ?]]]]; try reflexivity.
  destruct (path_given path); reflexivity.
Qed.

(** [capture] is independent of the streaming flag: on an open backend
    it produces the same frame or exception before [start_stream], after
    it, and after [stop_stream]. *)
Theorem capture_ignores_streaming_flag
        (env : Env) (path : option string) (w : World) :
  is_open w = true ->
  fst (capture env path (snd (start_stream w))) = fst (capture env path w) /\
  fst (capture env path (snd (stop_stream w))) = fst (capture env path w).
Proof.
  destruct_world w. unfold is_open. cbn [self _is_open]. intros ->.
  split.
  - apply (capture_result_set_is_streaming env path true
             (mkOpenCVCamera idx cap true str cfg)).
  - apply (capture_result_set_is_streaming env path false
             (mkOpenCVCamera idx cap true str cfg)).
Qed.

(** ** flush *)

(** With an acquired handle [flush] takes exactly five frames off the
    device through [grab], without reading the clock and without
    touching the driver object; a [capture] that follows builds its
    frame from the sixth buffer counted from the flush, and returns it
    unless a path is given on which [cv2.imwrite] raises. *)
Theorem flush_discards_five_frames
        (env : Env) (path : option string) (w : World) (cap : VideoCapture)
        (buf : ndarray) (h wd c : Z) :
  is_open w = true ->
  _capture (self w) = Some cap ->
  vc_opened cap = true ->
  source env (acquisitions w + 5) = Some buf ->
  shape buf = [h; wd; c] ->
  flush env w =
  (Returned tt,
   {| self := self w; acquisitions := (acquisitions w + 5)%nat;
      clock_reads := clock_reads w;
      native_log := [NGrab; NGrab; NGrab; NGrab; NGrab] ++ native_log w |}) /\
  fst (capture env path (snd (flush env w))) =
  match path_given path with
  | Some p =>
      if imwrite_raises env p buf then Raised cv2_error
      else Returned (mkFrame buf wd h c "BGR" (monotonic env (clock_reads w)))
  | None => Returned (mkFrame buf wd h c "BGR" (monotonic env (clock_reads w)))
  end.
Proof.
  intros Ho Hcap Hop Hsrc Hshape.
  assert (Hf : flush env w =
               (Returned tt,
                {| self := self w; acquisitions := (acquisitions w + 5)%nat;
                   clock_reads := clock_reads w;
                   native_log := [NGrab; NGrab; NGrab; NGrab; NGrab] ++ native_log w |})).
  { unfold flush. cbv [mbind M_bind bind get_self]. rewrite Hcap.
    cbv [VideoCapture_grab next_acquisition log_call mbind M_bind bind mret M_ret ret].
    rewrite Hop. cbn [acquisitions self clock_reads native_log].
    replace (acquisitions w + 5)%nat with (S (S (S (S (S (acquisitions w)))))) by lia.
    reflexivity. }
  split; [exact Hf |]. rewrite Hf. cbn [snd].
  erewrite capture_open_eq; [| exact Ho | exact Hcap]. cbv zeta.
  rewrite Hop. cbn [acquisitions clock_reads]. rewrite Hsrc, Hshape.
  destruct (path_given path); reflexivity.
Qed.

(** ** What acquisition leaves alone *)

(** [read], [capture], [flush] and [capabilities] never change the driver
    object: flags, handle and [current_config] are the same afterwards,
    whether the call returned, raised (a timeout included) or is still
    looping. *)
Theorem acquisition_leaves_driver_object_unchanged
        (env : Env) (fuel : nat) (targ : option (option Q))
        (path : option string) (w : World) :
  self (snd (read env fuel targ w)) = self w /\
  self (snd (capture env path w)) = self w /\
  self (snd (flush env w)) = self w /\
  self (snd (capabilities w)) = self w.
Proof.
  split; [apply read_self |]. split; [apply capture_self |].
  split; [apply flush_self | apply capabilities_self].
Qed.

(** ** read: when it times out and when it returns *)

Lemma read_loop_timeout_not_early
      (env : Env) (cap : VideoCapture) (timeout : option Q) (st : Q) (fuel : nat) :
  forall w w' : World,
    read_loop env fuel cap timeout st w = (Raised CameraTimeout, w') ->
    exists t,
      timeout = Some t /\
      (t < float_sub env (monotonic env (Nat.pred (clock_reads w'))) st)%Q.
Proof.
  induction fuel as [| fuel IH]; intros w w'; [discriminate |].
  rewrite read_loop_step. cbv zeta.
  destruct (if vc_opened cap then source env (acquisitions w) else None) as [buf |].
  - destruct (shape buf) as [| h [| wd [| c [| ? ?]]]]; discriminate.
  - destruct timeout as [t |]; [| apply IH].
    destruct (Qgtb _ t) eqn:E; [| apply IH].
    intros H. injection H as <-. exists t. split; [reflexivity |].
    apply Qgtb_true in E. exact E.
Qed.

(** [read] raises [CameraTimeout] only if a timeout is in force (the
    one passed, or 2.0 when none is passed, never an explicit [None])
    and the last reading of the clock exceeded the reading taken at the
    start by more than that timeout, the difference being the one the
    platform's floating-point subtraction gives; when that subtraction
    never turns a difference of at most the timeout into more than the
    timeout (rounding is monotone and the timeout is itself a float), the
    exact difference of the two readings exceeds the timeout as well. *)
Theorem read_timeout_only_after_the_bound
        (env : Env) (fuel : nat) (targ : option (option Q)) (w w' : World) :
  read env fuel targ w = (Raised CameraTimeout, w') ->
  exists t,
    default read_default_timeout targ = Some t /\
    (t < float_sub env (monotonic env (Nat.pred (clock_reads w')))
                       (monotonic env (clock_reads w)))%Q /\
    ((forall x y : Q, (x - y <= t)%Q -> (float_sub env x y <= t)%Q) ->
     (t < monotonic env (Nat.pred (clock_reads w'))
          - monotonic env (clock_reads w))%Q).
Proof.
  unfold read. cbv [mbind M_bind bind get_self].
  destruct (negb (_is_streaming (self w))); [discriminate |].
  destruct (_capture (self w)) as [cap |]; [| discriminate].
  cbv [time_monotonic]. intros H.
  apply read_loop_timeout_not_early in H as (t & Ht & Hlt).
  exists t. split; [exact Ht |]. split; [exact Hlt |].
  intros Hround. apply Qnot_le_lt. intros Hle.
  apply Hround in Hle. exact (Qlt_not_le _ _ Hlt Hle).
Qed.

Lemma read_loop_waits_for_frame
      (env : Env) (cap : VideoCapture) (st : Q) (buf : ndarray) (h wd c : Z)
      (extra : nat) (k : nat) :
  vc_opened cap = true ->
  shape buf = [h; wd; c] ->
  forall w : World,
    (forall i : nat, (i < k)%nat -> source env (acquisitions w + i) = None) ->
    source env (acquisitions w + k) = Some buf ->
    exists w',
      read_loop env (S k + extra) cap None st w =
      (Returned (mkFrame buf wd h c "BGR" (monotonic env (clock_reads w))), w') /\
      count_reads (native_log w') = (S k + count_reads (native_log w))%nat /\
      acquisitions w' = (acquisitions w + S k)%nat.
Proof.
  intros Hop Hshape. induction k as [| k IH]; intros w Hnone Hsome.
  - rewrite Nat.add_0_r in Hsome.
    cbn [Nat.add]. rewrite read_loop_step. cbv zeta. rewrite Hop, Hsome, Hshape.
    eexists. split; [reflexivity |].
    cbn [ticked after_native_read native_log acquisitions]. rewrite Hop.
    rewrite count_reads_NRead. split; lia.
  - cbn [Nat.add]. rewrite read_loop_step. cbv zeta. rewrite Hop.
    rewrite <- (Nat.add_0_r (acquisitions w)), (Hnone 0%nat) by lia.
    destruct (IH (after_native_read cap w)) as (w' & E & Hn & Ha).
    + intros i Hi. cbn [after_native_read acquisitions]. rewrite Hop.
      replace (S (acquisitions w) + i)%nat with (acquisitions w + S i)%nat by lia.
      apply Hnone. lia.
    + cbn [after_native_read acquisitions]. rewrite Hop.
      replace (S (acquisitions w) + k)%nat with (acquisitions w + S k)%nat by lia.
      exact Hsome.
    + exists w'. split; [exact E |].
      rewrite Hn, Ha. cbn [after_native_read native_log acquisitions].
      rewrite Hop, count_reads_NRead. split; lia.
Qed.

(** A streaming backend whose device fails [k] times and then delivers
    a three-dimensional buffer: [read(timeout=None)], given at least
    [k+1] iterations, returns the frame built from that buffer after
    exactly [k+1] calls of the capture primitive, stamped with the
    reading of the clock that follows the one taken at the start. *)
Theorem read_retries_until_a_frame_arrives
        (env : Env) (w : World) (cap : VideoCapture) (buf : ndarray)
        (h wd c : Z) (k extra : nat) :
  is_streaming w = true ->
  _capture (self w) = Some cap ->
  vc_opened cap = true ->
  (forall i : nat, (i < k)%nat -> source env (acquisitions w + i) = None) ->
  source env (acquisitions w + k) = Some buf ->
  shape buf = [h; wd; c] ->
  exists w',
    read env (S k + extra) (Some None) w =
    (Returned (mkFrame buf wd h c "BGR" (monotonic env (S (clock_reads w)))), w') /\
    count_reads (native_log w') = (S k + count_reads (native_log w))%nat /\
    acquisitions w' = (acquisitions w + S k)%nat.
Proof.
  intros Hs Hcap Hop Hnone Hsome Hshape.
  rewrite (read_streaming_eq env _ _ cap w Hs Hcap).
  apply (read_loop_waits_for_frame env cap _ buf h wd c extra k Hop Hshape (ticked w));
    assumption.
Qed.

(** Every frame that [read] or [capture] returns carries a pixel format
    that [capabilities()] of the same backend lists. *)
Theorem returned_frames_use_an_advertised_pixel_format
        (env : Env) (fuel : nat) (targ : option (option Q))
        (path : option string) (w w' : World) (f : Frame) :
  read env fuel targ w = (Returned f, w') \/
  capture env path w = (Returned f, w') ->
  exists caps,
    capabilities w = (Returned caps, w) /\
    In (frame_pixel_format f) (pixel_formats caps).
Proof.
  assert (Hloop : forall fuel0 cap timeout st w0 w1,
             read_loop env fuel0 cap timeout st w0 = (Returned f, w1) ->
             frame_pixel_format f = "BGR"%string).
  { induction fuel0 as [| fuel0 IH]; intros cap timeout st w0 w1; [discriminate |].
    rewrite read_loop_step. cbv zeta.
    destruct (if vc_opened cap then source env (acquisitions w0) else None) as [buf |].
    - destruct (shape buf) as [| h [| wd [| c [| ? ?]]]]; try discriminate.
      intros H. injection H as <- _. reflexivity.
    - destruct timeout as [t |]; [| apply IH].
      destruct (Qgtb _ t); [discriminate | apply IH]. }
  assert (Hcaps : forall cap, _capture (self w) = Some cap ->
             exists caps, capabilities w = (Returned caps, w) /\
                          pixel_formats caps = ["BGR"%string]).
  { intros cap Hcap. unfold capabilities. cbv [mbind M_bind bind get_self].
    rewrite Hcap. eexists. split; reflexivity. }
  intros [H | H].
  - unfold read in H. cbv [mbind M_bind bind get_self] in H.
    destruct (negb (_is_streaming (self w))); [discriminate |].
    destruct (_capture (self w)) as [cap |] eqn:Hcap; [| discriminate].
    cbv [time_monotonic] in H. apply Hloop in H.
    destruct (Hcaps cap eq_refl) as (caps & E & Hp).
    exists caps. split; [exact E |]. rewrite Hp, H. left. reflexivity.
  - destruct (is_open w) eqn:Ho;
      [| rewrite (capture_needs_open env path w Ho) in H; discriminate].
    destruct (_capture (self w)) as [cap |] eqn:Hcap.
    + rewrite (capture_open_eq env path cap w Ho Hcap) in H. cbv zeta in H.
      destruct (if vc_opened cap then source env (acquisitions w) else None) as [buf |];
        [| discriminate].
      destruct (shape buf) as [| h [| wd [| c [| ? ?]]]]; try discriminate.
      destruct (path_given path) as [p |];
        [destruct (imwrite_raises env p buf); [discriminate |] |];
        injection H as <- _;
      destruct (Hcaps cap eq_refl) as (caps & E & Hp);
      exists caps; (split; [exact E |]); rewrite Hp; left; reflexivity.
    + unfold is_open in Ho. unfold capture in H.
      cbv [mbind M_bind bind get_self] in H. rewrite Ho, Hcap in H. discriminate.
Qed.

(** ** The convenience setters *)

Ltac run_setter Hcap Hfit :=
  cbv [set_resolution set_framerate set_exposure set_white_balance set_focus set_roi];
  cbv [mbind M_bind bind get_self];
  erewrite set_config_with_handle; [| exact Hcap | exact Hfit].

Ltac other_fields :=
  let f := fresh "f" in
  let Hf := fresh "Hf" in
  intros f Hf; destruct f; try reflexivity;
  exfalso; apply Hf; cbn; tauto.

Lemma set_config_self_eq (w : World) (cap : VideoCapture) (c : CameraConfig) :
  _capture (self w) = Some cap ->
  self (snd (set_config c w)) =
  if resolution_fits c then set_current_config c (self w) else self w.
Proof.
  intros Hcap. destruct (resolution_fits c) eqn:Hfit.
  - rewrite (set_config_with_handle w cap c Hcap Hfit). reflexivity.
  - rewrite (set_config_overflow w cap c Hcap Hfit).
    destruct (fits_double _); reflexivity.
Qed.

(** The current resolution of a reachable backend converts to doubles:
    it is the default or went through [cap.set]. *)
Lemma reachable_resolution_fits (w : World) :
  reachable w -> resolution_fits (current_config w) = true.
Proof.
  unfold current_config.
  induction 1 as [idx | env c w _ IH]; [reflexivity |].
  destruct c; cbn [after].
  - destruct (is_open w) eqn:Ho.
    + rewrite (open_when_open_does_nothing env config w Ho). exact IH.
    + rewrite (open_not_open_eq env config w Ho). cbv zeta.
      destruct (device_present env (_device_index (self w))); [| exact IH].
      destruct config as [c0 |]; [| reflexivity].
      cbn [snd].
      match goal with
      | |- context [set_config c0 ?W] =>
          destruct (set_config_self W c0) as [E | [Hfit E]]; rewrite E
      end; [exact IH | exact Hfit].
  - rewrite close_eq. exact IH.
  - destruct_world w. destruct opn; exact IH.
  - exact IH.
  - rewrite read_self. exact IH.
  - rewrite flush_self. exact IH.
  - rewrite capture_self. exact IH.
  - destruct (set_config_self w config) as [E | [Hfit E]]; rewrite E;
      [exact IH | exact Hfit].
  - rewrite capabilities_self. exact IH.
Qed.

(** Without a handle each of the six setters raises [CameraStateError]
    and leaves the world, [current_config] included, as it was. *)
Theorem setters_need_a_handle
        (w : World) (a b : Z) (fps x y rw rh : Q) (auto : bool)
        (t i : option Z) (gr gb d : option Q) :
  _capture (self w) = None ->
  set_resolution a b w = (Raised CameraStateError, w) /\
  set_framerate fps w = (Raised CameraStateError, w) /\
  set_exposure auto t i w = (Raised CameraStateError, w) /\
  set_white_balance auto gr gb w = (Raised CameraStateError, w) /\
  set_focus auto d w = (Raised CameraStateError, w) /\
  set_roi x y rw rh w = (Raised CameraStateError, w).
Proof.
  intros Hcap.
  cbv [set_resolution set_framerate set_exposure set_white_balance set_focus set_roi].
  cbv [mbind M_bind bind get_self].
  repeat split; apply set_config_without_handle; exact Hcap.
Qed.


(** With a handle, [set_exposure], [set_white_balance] and [set_focus]
    store the mode flag; the manual values passed along are stored only
    in manual mode and replaced by [None] in auto mode; [iso] is stored as
    passed, [None] included.  All fields outside the group keep the value
    they have in the previous [current_config].  This holds whenever the
    current resolution, which the setters send to the device again,
    converts to doubles, as it does in every reachable state
    ([reachable_resolution_fits]); in a state where it does not, each of
    the three raises [OverflowError] and leaves the driver object as it
    was. *)
Theorem mode_setters_drop_manual_values_in_auto_mode
        (w : World) (cap : VideoCapture) (auto : bool)
        (t i : option Z) (gr gb d : option Q) :
  _capture (self w) = Some cap ->
  if resolution_fits (current_config w) then
    (exists c' w',
        set_exposure auto t i w = (Returned c', w') /\ current_config w' = c' /\
        auto_exposure c' = auto /\
        exposure_time_us c' = (if auto then None else t) /\
        iso c' = i /\
        differ_at_most_on [F_auto_exposure; F_exposure_time_us; F_iso]
                          (current_config w) c') /\
    (exists c' w',
        set_white_balance auto gr gb w = (Returned c', w') /\ current_config w' = c' /\
        auto_white_balance c' = auto /\
        white_balance_gain_r c' = (if auto then None else gr) /\
        white_balance_gain_b c' = (if auto then None else gb) /\
        differ_at_most_on
          [F_auto_white_balance; F_white_balance_gain_r; F_white_balance_gain_b]
          (current_config w) c') /\
    (exists c' w',
        set_focus auto d w = (Returned c', w') /\ current_config w' = c' /\
        auto_focus c' = auto /\
        focus_distance_m c' = (if auto then None else d) /\
        differ_at_most_on [F_auto_focus; F_focus_distance_m] (current_config w) c')
  else
    (exists w', set_exposure auto t i w = (Raised OverflowError, w') /\
                self w' = self w) /\
    (exists w', set_white_balance auto gr gb w = (Raised OverflowError, w') /\
                self w' = self w) /\
    (exists w', set_focus auto d w = (Raised OverflowError, w') /\
                self w' = self w).
Proof.
  intros Hcap. destruct (resolution_fits (current_config w)) eqn:Hfit.
  - split; [| split];
      eexists; eexists; run_setter Hcap Hfit;
      (split; [reflexivity |]); (split; [reflexivity |]);
      (split; [reflexivity |]); (split; [destruct auto; reflexivity |]).
    + split; [reflexivity | other_fields].
    + split; [destruct auto; reflexivity | other_fields].
    + other_fields.
  - split; [| split];
      cbv [set_exposure set_white_balance set_focus];
      cbv [mbind M_bind bind get_self];
      (erewrite set_config_overflow; [| exact Hcap | exact Hfit]);
      eexists; (split; [reflexivity |]);
      destruct (fits_double _); reflexivity.
Qed.

(** Setters of different fields commute as far as the driver object is
    concerned: in a state whose current resolution converts to doubles
    (every reachable state), resolution and frame rate, and exposure and
    white balance, can be set in either order with the same resulting
    flags, handle and [current_config], also when a setter raises. *)
Theorem setters_of_different_fields_commute
        (w : World) (a b : Z) (fps : Q) (auto1 auto2 : bool)
        (t i : option Z) (gr gb : option Q) :
  resolution_fits (current_config w) = true ->
  self (snd (set_framerate fps (snd (set_resolution a b w)))) =
  self (snd (set_resolution a b (snd (set_framerate fps w)))) /\
  self (snd (set_white_balance auto2 gr gb (snd (set_exposure auto1 t i w)))) =
  self (snd (set_exposure auto1 t i (snd (set_white_balance auto2 gr gb w)))).
Proof.
  destruct_world w. unfold current_config. cbn [self _current_config].
  intros Hfit. destruct cap as [c0 |]; [| split; reflexivity].
  cbv [set_resolution set_framerate set_exposure set_white_balance set_focus set_roi].
  cbv [mbind M_bind bind get_self]. cbn [self _current_config].
  assert (Hinner : forall c W,
             _capture (self W) = Some c0 ->
             _capture (self (snd (set_config c W))) = Some c0).
  { intros c W HW. rewrite (set_config_self_eq W c0 c HW).
    destruct (resolution_fits c); exact HW. }
  split.
  - rewrite !(set_config_self_eq _ c0) by (try apply Hinner; reflexivity).
    unfold resolution_fits in *. cbn.
    destruct (fits_double a && fits_double b) eqn:Hab; cbn;
      rewrite ?Hfit, ?Hab; cbn; rewrite ?Hfit, ?Hab;
      unfold set_current_config; cbn; reflexivity.
  - rewrite !(set_config_self_eq _ c0) by (try apply Hinner; reflexivity).
    unfold resolution_fits in *. cbn.
    rewrite ?Hfit; cbn; rewrite ?Hfit;
      unfold set_current_config; cbn; reflexivity.
Qed.

(** ** The frames generator *)

(** Once the stream is not active, the next item asked of a [frames()]
    generator ends it without an exception and without touching the
    device; a generator that has ended delivers nothing more, whatever
    the state of the backend, streaming resumed or not. *)
Theorem frames_ends_when_streaming_stops
        (env : Env) (fuel : nat) (targ : option (option Q)) (w w2 : World) :
  is_streaming w = false ->
  frames_next env fuel (frames targ) w =
    (Returned None, finished (frames targ), w) /\
  frames_next env fuel (finished (frames targ)) w2 =
    (Returned None, finished (frames targ), w2).
Proof.
  intros Hs. unfold frames_next. cbn [frames gen_finished finished].
  rewrite Hs. split; reflexivity.
Qed.

(** When the device delivers nothing while the timeout test of [read]
    fails [k] times and succeeds the next time, the next item of a
    [frames(timeout=t)] generator raises [CameraTimeout] out of the
    generator in that iteration and not before, whatever the device
    would deliver afterwards: the stream flag is still set, but the
    generator has ended and delivers nothing more. *)
Theorem frames_timeout_ends_the_generator
        (env : Env) (t : Q) (k extra : nat) (cap : VideoCapture) (w : World) :
  is_streaming w = true ->
  _capture (self w) = Some cap ->
  (forall i : nat, (i <= k)%nat -> source env (acquisitions w + i) = None) ->
  (forall i : nat, (i < k)%nat ->
     timeout_exceeded env t (clock_reads w) i = false) ->
  timeout_exceeded env t (clock_reads w) k = true ->
  let g := frames (Some (Some t)) in
  (forall fuel : nat, (fuel <= k)%nat ->
     exists w', frames_next env fuel g w = (Looping, g, w')) /\
  exists w',
    frames_next env (S k + extra) g w = (Raised CameraTimeout, finished g, w') /\
    is_streaming w' = true /\
    count_reads (native_log w') = (S k + count_reads (native_log w))%nat /\
    forall (fuel2 : nat) (w2 : World),
      frames_next env fuel2 (finished g) w2 = (Returned None, finished g, w2).
Proof.
  intros Hs Hcap Hsrc Hlt Hk. cbv zeta.
  assert (Hnext : forall fuel,
             frames_next env fuel (frames (Some (Some t))) w =
             match read_loop env fuel cap (Some t) (monotonic env (clock_reads w))
                             (ticked w) with
             | (Returned f, w') => (Returned (Some f), frames (Some (Some t)), w')
             | (Raised e, w') => (Raised e, finished (frames (Some (Some t))), w')
             | (Looping, w') => (Looping, frames (Some (Some t)), w')
             end).
  { intros fuel. unfold frames_next. cbn [frames gen_finished]. rewrite Hs.
    cbn [gen_timeout]. rewrite (read_streaming_eq env fuel _ cap w Hs Hcap).
    reflexivity. }
  split.
  - intros fuel Hfuel. rewrite Hnext.
    destruct (read_loop_keeps_looping env cap (Some t)
                (monotonic env (clock_reads w)) fuel (ticked w))
      as (w' & E & _).
    + intros i Hi. apply Hsrc. lia.
    + intros t0 Ht0 i Hi. injection Ht0 as <-. apply (Hlt i). lia.
    + exists w'. rewrite E. reflexivity.
  - destruct (read_loop_times_out_at env cap t
                (monotonic env (clock_reads w)) k extra (ticked w) Hsrc Hlt Hk)
      as (w' & E & Hself & _ & Hn).
    exists w'. rewrite Hnext, E. split; [reflexivity |]. split; [| split].
    + unfold is_streaming in *. rewrite Hself. exact Hs.
    + exact Hn.
    + intros fuel2 w2. reflexivity.
Qed.

Lemma frames_take_live
      (env : Env) (bufs : nat -> ndarray) (cap : VideoCapture) (fuel : nat)
      (g : FramesGenerator) (n : nat) :
  vc_opened cap = true ->
  gen_finished g = false ->
  (forall k : nat, source env k = Some (bufs k) /\ length (shape (bufs k)) = 3%nat) ->
  forall w : World,
    is_streaming w = true ->
    _capture (self w) = Some cap ->
    exists fs w',
      frames_take env (S fuel) n g w = (fs, g, w') /\
      map data fs = map bufs (seq (acquisitions w) n) /\
      self w' = self w /\
      acquisitions w' = (acquisitions w + n)%nat.
Proof.
  intros Hop Hg Hsrc. induction n as [| n IH]; intros w Hs Hcap.
  - exists [], w. cbn. repeat split. lia.
  - cbn [frames_take]. unfold frames_next. rewrite Hg, Hs.
    rewrite (read_streaming_eq env _ _ cap w Hs Hcap), read_loop_step. cbv zeta.
    rewrite Hop. cbn [ticked acquisitions clock_reads].
    destruct (Hsrc (acquisitions w)) as [-> Hlen].
    destruct (shape (bufs (acquisitions w))) as [| h [| wd [| c [| ? ?]]]];
      try discriminate Hlen.
    destruct (IH (ticked (after_native_read cap (ticked w)))) as (fs & w' & E & Hm & Hself & Ha).
    + exact Hs.
    + exact Hcap.
    + rewrite E. eexists. eexists. split; [reflexivity |].
      cbn [map seq data]. rewrite Hm.
      cbn [ticked after_native_read acquisitions self] in *. rewrite Hop in *.
      split; [reflexivity |]. split; [exact Hself | lia].
Qed.

(** Over a streaming backend whose device delivers a three-dimensional
    buffer at every acquisition, [n] items taken from [frames()] are [n]
    frames carrying the next [n] buffers of the device in order; the
    generator is still live and the driver object unchanged. *)
Theorem frames_delivers_consecutive_buffers
        (env : Env) (bufs : nat -> ndarray) (cap : VideoCapture) (fuel n : nat)
        (targ : option (option Q)) (w : World) :
  is_streaming w = true ->
  _capture (self w) = Some cap ->
  vc_opened cap = true ->
  (forall k : nat, source env k = Some (bufs k) /\ length (shape (bufs k)) = 3%nat) ->
  exists fs w',
    frames_take env (S fuel) n (frames targ) w = (fs, frames targ, w') /\
    map data fs = map bufs (seq (acquisitions w) n) /\
    self w' = self w /\
    acquisitions w' = (acquisitions w + n)%nat.
Proof.
  intros Hs Hcap Hop Hsrc.
  exact (frames_take_live env bufs cap fuel (frames targ) n Hop eq_refl Hsrc w Hs Hcap).
Qed.

(** ** The context manager *)

Lemma exit_eq (w : World) :
  __exit__ w =
  (Returned tt,
   if _is_open (self w) then snd (close w)
   else {| self := set_is_streaming false (self w);
           acquisitions := acquisitions w; clock_reads := clock_reads w;
           native_log := native_log w |}).
Proof.
  destruct_world w. destruct opn, str, cap; reflexivity.
Qed.

(** [__exit__] never raises and always ends with the backend neither
    open nor streaming.  A backend that was open is closed, its handle
    released and dropped; one that was not open is not closed, so its
    handle attribute and the native log stay as they were. *)
Theorem exit_stops_and_closes (w : World) :
  exists w',
    __exit__ w = (Returned tt, w') /\
    is_open w' = false /\
    is_streaming w' = false /\
    (is_open w = true -> w' = snd (close w)) /\
    (is_open w = false ->
     _capture (self w') = _capture (self w) /\ native_log w' = native_log w).
Proof.
  eexists. split; [apply exit_eq |].
  destruct_world w. unfold is_open, is_streaming. cbn [self _is_open].
  destruct opn.
  - rewrite close_eq. cbn. repeat split; discriminate.
  - cbn. repeat split; discriminate.
Qed.

(** A [with] block whose [__enter__] returned and whose body returned or
    raised ends with the outcome of the body, after [__exit__] has run on
    the world the body left: the backend is then neither open nor
    streaming.  When [__enter__] raises, the body does not run. *)
Theorem with_block_always_exits
        {A : Type} (env : Env) (body : M A) (w w1 w2 : World) (r : outcome A) :
  __enter__ env w = (Returned tt, w1) ->
  body w1 = (r, w2) ->
  r <> Looping ->
  with_camera env body w = (r, snd (__exit__ w2)) /\
  is_open (snd (__exit__ w2)) = false /\
  is_streaming (snd (__exit__ w2)) = false /\
  (forall (e : Exn) (w0 w0' : World),
      __enter__ env w0 = (Raised e, w0') ->
      with_camera env body w0 = (Raised e, w0')).
Proof.
  intros He Hb Hr.
  destruct (exit_stops_and_closes w2) as (w3 & Hx & Ho & Hs & _).
  rewrite Hx. cbn [snd]. split; [| split; [exact Ho | split; [exact Hs |]]].
  - unfold with_camera. cbv [mbind M_bind bind]. rewrite He.
    unfold try_finally. rewrite Hb, Hx.
    destruct r; [reflexivity | reflexivity | contradiction].
  - intros e w0 w0' H0. unfold with_camera. cbv [mbind M_bind bind].
    rewrite H0. reflexivity.
Qed.

(** ** The camera test *)







(** ** The selector: keys *)

Lemma rsplit_dot_None (s : string) :
  CameraFactory.rsplit_dot s = None <-> has_dot s = false.
Proof.
  induction s as [| ch rest IH]; cbn [CameraFactory.rsplit_dot has_dot].
  - split; reflexivity.
  - destruct (CameraFactory.rsplit_dot rest) as [[h t] |].
    + split; [discriminate |]. intros H. apply orb_false_iff in H as [_ H].
      apply IH in H. discriminate H.
    + destruct (Ascii.eqb ch CameraFactory.dot); cbn [orb].
      * split; discriminate.
      * split; [intros _; apply IH; reflexivity | reflexivity].
Qed.

(** Splitting a key and joining the two names with a dot are inverse:
    a key splits into module path [m] and class name [c] exactly when it
    is [m + "." + c] with no dot in [c]; a key without any dot does not
    split. *)
Theorem rsplit_dot_round_trip (key m c : string) :
  (CameraFactory.rsplit_dot key = Some (m, c) <->
   key = dotted m c /\ has_dot c = false) /\
  (CameraFactory.rsplit_dot key = None <-> has_dot key = false).
Proof.
  split; [| apply rsplit_dot_None]. split.
  - revert m. induction key as [| ch rest IH]; intros m; [discriminate |].
    cbn [CameraFactory.rsplit_dot].
    destruct (CameraFactory.rsplit_dot rest) as [[h t] |] eqn:E.
    + intros H. injection H as <- <-.
      destruct (IH h eq_refl) as [-> Hc]. split; [reflexivity | exact Hc].
    + destruct (Ascii.eqb ch CameraFactory.dot) eqn:Ec; [| discriminate].
      intros H. injection H as <- <-. apply Ascii.eqb_eq in Ec. subst ch.
      split; [reflexivity | apply rsplit_dot_None; exact E].
  - intros [-> Hc]. induction m as [| ch m IH].
    + change (dotted EmptyString c) with (String CameraFactory.dot c).
      cbn [CameraFactory.rsplit_dot].
      apply rsplit_dot_None in Hc. rewrite Hc. reflexivity.
    + change (dotted (String ch m) c) with (String ch (dotted m c)).
      cbn [CameraFactory.rsplit_dot]. rewrite IH. reflexivity.
Qed.

(** A key [module + "." + name], where [name] has no dot and [module]
    is an importable module (not empty, not starting with a dot) that
    defines the class [name]: [create] calls that class with the
    hardware parameters unchanged.  If the call raises (an abstract
    class, a constructor that does not take the keywords), [create]
    raises the same exception and nothing was constructed.  Otherwise
    exactly one instance of that class exists, and [create] returns it
    if the class derives from [CameraInterface] and raises [TypeError]
    if it does not. *)
Theorem create_on_a_registered_class
        (modules : gmap string (gmap string CameraFactory.PyAttr))
        (ch : Ascii.ascii) (module_rest class_name : string)
        (module : gmap string CameraFactory.PyAttr) (cls : CameraFactory.PyClass)
        (hw : CameraFactory.HardwareConfig) :
  Ascii.eqb ch CameraFactory.dot = false ->
  has_dot class_name = false ->
  modules !! String ch module_rest = Some module ->
  module !! class_name = Some (CameraFactory.AttrClass cls) ->
  CameraFactory.create modules (dotted (String ch module_rest) class_name) hw =
  match CameraFactory.cls_new cls hw with
  | Some e => (Raised e, [])
  | None =>
      (if CameraFactory.cls_is_camera cls
       then Returned (CameraFactory.mkInstance cls hw)
       else Raised TypeError,
       [CameraFactory.mkInstance cls hw])
  end.
Proof.
  intros Hch Hc Hm Ha. unfold CameraFactory.create.
  assert (Hsplit : CameraFactory.rsplit_dot (dotted (String ch module_rest) class_name)
                   = Some (String ch module_rest, class_name)).
  { apply rsplit_dot_round_trip. split; [reflexivity | exact Hc]. }
  rewrite Hsplit. unfold CameraFactory.import_module. rewrite Hch, Hm, Ha.
  destruct (CameraFactory.cls_new cls hw); [reflexivity |].
  unfold CameraFactory.isinstance_CameraInterface. cbn.
  destruct (CameraFactory.cls_is_camera cls); reflexivity.
Qed.

(** Malformed keys construct nothing: a key without a dot and a key
    whose module part is empty raise [ValueError]; a key whose module
    part starts with a dot (a relative module name) raises [TypeError]. *)
Theorem create_on_malformed_keys
        (modules : gmap string (gmap string CameraFactory.PyAttr))
        (key m c : string) (hw : CameraFactory.HardwareConfig) :
  has_dot key = false ->
  has_dot c = false ->
  CameraFactory.create modules key hw = (Raised ValueError, []) /\
  CameraFactory.create modules (dotted EmptyString c) hw = (Raised ValueError, []) /\
  CameraFactory.create modules (dotted (String CameraFactory.dot m) c) hw
  = (Raised TypeError, []).
Proof.
  intros Hk Hc. unfold CameraFactory.create. split; [| split].
  - apply rsplit_dot_None in Hk. rewrite Hk. reflexivity.
  - assert (H : CameraFactory.rsplit_dot (dotted EmptyString c) = Some (EmptyString, c))
      by (apply rsplit_dot_round_trip; split; [reflexivity | exact Hc]).
    rewrite H. reflexivity.
  - assert (H : CameraFactory.rsplit_dot (dotted (String CameraFactory.dot m) c)
                = Some (String CameraFactory.dot m, c))
      by (apply rsplit_dot_round_trip; split; [reflexivity | exact Hc]).
    rewrite H. reflexivity.
Qed.

(** ** Concrete runs of the further properties *)

Lemma open_when_open_does_nothing_witness :
  open env_no_device (Some example_request) (world_open_idle env_silent_camera)
  = (Returned tt, world_open_idle env_silent_camera).
Proof.
  apply (open_when_open_does_nothing env_no_device (Some example_request)
           (world_open_idle env_silent_camera)).
  reflexivity.
Defined.


Lemma open_failure_leaves_flags_and_config_witness :
  exists w',
    open env_no_device (Some example_request) (fresh_world 0)
    = (Raised CameraOpenError, w') /\
    is_open w' = false /\
    is_streaming w' = false /\
    current_config w' = CameraConfig_default /\
    native_log w' = [NVideoCapture 0].
Proof.
  apply (open_failure_leaves_flags_and_config env_no_device (Some example_request)
           (fresh_world 0)); reflexivity.
Defined.

Lemma start_stream_needs_open_witness :
  start_stream (fresh_world 0) = (Raised CameraStateError, fresh_world 0) /\
  exists w',
    start_stream (world_open_idle env_silent_camera) = (Returned tt, w') /\
    lifecycle w' = OpenStreaming.
Proof.
  split.
  - apply (proj1 (start_stream_needs_open (fresh_world 0))). reflexivity.
  - destruct (proj2 (start_stream_needs_open (world_open_idle env_silent_camera))
                    eq_refl) as (w' & H1 & H2 & _).
    exists w'. split; [exact H1 | exact H2].
Defined.

Lemma start_then_stop_is_identity_witness :
  after_start_stop (world_open_idle env_silent_camera)
  = world_open_idle env_silent_camera /\
  snd (start_stream (snd (start_stream (world_open_idle env_silent_camera))))
  = snd (start_stream (world_open_idle env_silent_camera)).
Proof.
  apply (start_then_stop_is_identity (world_open_idle env_silent_camera));
    reflexivity.
Defined.

Lemma capture_times_out_after_one_attempt_witness :
  exists w',
    capture env_silent_camera None (world_open_idle env_silent_camera)
    = (Raised CameraTimeout, w') /\
    self w' = self (world_open_idle env_silent_camera) /\
    native_log w' = NRead :: native_log (world_open_idle env_silent_camera) /\
    clock_reads w' = clock_reads (world_open_idle env_silent_camera) /\
    acquisitions w' = S (acquisitions (world_open_idle env_silent_camera)).
Proof.
  apply (capture_times_out_after_one_attempt env_silent_camera None
           (world_open_idle env_silent_camera)).
  - apply reach_call, reach_fresh.
  - reflexivity.
  - reflexivity.
Defined.

Lemma capture_ignores_streaming_flag_witness :
  fst (capture (env_camera bgr_buffer) None
               (snd (start_stream (world_open_idle (env_camera bgr_buffer)))))
  = fst (capture (env_camera bgr_buffer) None (world_open_idle (env_camera bgr_buffer))) /\
  fst (capture (env_camera bgr_buffer) None
               (snd (stop_stream (world_open_idle (env_camera bgr_buffer)))))
  = fst (capture (env_camera bgr_buffer) None (world_open_idle (env_camera bgr_buffer))).
Proof.
  apply (capture_ignores_streaming_flag (env_camera bgr_buffer) None
           (world_open_idle (env_camera bgr_buffer))).
  reflexivity.
Defined.

Lemma flush_discards_five_frames_witness :
  flush env_slow_start (world_open_idle env_slow_start) =
  (Returned tt,
   {| self := self (world_open_idle env_slow_start); acquisitions := 5;
      clock_reads := 0;
      native_log := [NGrab; NGrab; NGrab; NGrab; NGrab; NVideoCapture 0] |}) /\
  fst (capture env_slow_start None (snd (flush env_slow_start (world_open_idle env_slow_start))))
  = Returned (mkFrame bgr_buffer 640 480 3 "BGR" (one_second_clock 0)).
Proof.
  apply (flush_discards_five_frames env_slow_start None (world_open_idle env_slow_start)
           (mkVideoCapture 0 true) bgr_buffer 480 640 3); reflexivity.
Defined.

Lemma read_timeout_only_after_the_bound_witness :
  exists t,
    default read_default_timeout None = Some t /\
    (t < float_sub env_silent_camera
           (monotonic env_silent_camera
              (Nat.pred (clock_reads
                 (snd (read env_silent_camera 3 None
                            (world_streaming env_silent_camera))))))
           (monotonic env_silent_camera
              (clock_reads (world_streaming env_silent_camera))))%Q.
Proof.
  destruct (read_timeout_only_after_the_bound env_silent_camera 3 None
              (world_streaming env_silent_camera)
              (snd (read env_silent_camera 3 None (world_streaming env_silent_camera)))
              eq_refl)
    as (t & Ht & Hlt & _).
  exists t. split; [exact Ht | exact Hlt].
Defined.

Lemma read_retries_until_a_frame_arrives_witness :
  exists w',
    read env_slow_start 4 (Some None) (world_streaming env_slow_start) =
    (Returned (mkFrame bgr_buffer 640 480 3 "BGR" (one_second_clock 1)), w') /\
    count_reads (native_log w') = 3%nat /\
    acquisitions w' = 3%nat.
Proof.
  apply (read_retries_until_a_frame_arrives env_slow_start
           (world_streaming env_slow_start) (mkVideoCapture 0 true)
           bgr_buffer 480 640 3 2 1).
  - reflexivity.
  - reflexivity.
  - reflexivity.
  - intros i Hi. destruct i as [| [| i]]; [reflexivity | reflexivity | lia].
  - reflexivity.
  - reflexivity.
Defined.

Lemma returned_frames_use_an_advertised_pixel_format_witness :
  exists caps,
    capabilities (world_open_idle (env_camera bgr_buffer))
    = (Returned caps, world_open_idle (env_camera bgr_buffer)) /\
    In "BGR"%string (pixel_formats caps).
Proof.
  apply (returned_frames_use_an_advertised_pixel_format
           (env_camera bgr_buffer) 1 None None
           (world_open_idle (env_camera bgr_buffer))
           (snd (capture (env_camera bgr_buffer) None
                         (world_open_idle (env_camera bgr_buffer))))
           (mkFrame bgr_buffer 640 480 3 "BGR" (one_second_clock 0))).
  right. reflexivity.
Defined.

Lemma setters_need_a_handle_witness :
  set_resolution 640 480 (fresh_world 0) = (Raised CameraStateError, fresh_world 0) /\
  set_framerate (15 # 1) (fresh_world 0) = (Raised CameraStateError, fresh_world 0) /\
  set_exposure false (Some 1000) None (fresh_world 0)
  = (Raised CameraStateError, fresh_world 0) /\
  set_white_balance false None None (fresh_world 0)
  = (Raised CameraStateError, fresh_world 0) /\
  set_focus true None (fresh_world 0) = (Raised CameraStateError, fresh_world 0) /\
  set_roi 0 0 1 1 (fresh_world 0) = (Raised CameraStateError, fresh_world 0).
Proof.
  apply (setters_need_a_handle (fresh_world 0) 640 480 (15 # 1) 0 0 1 1
           false (Some 1000) None None None None).
  reflexivity.
Defined.


Lemma mode_setters_drop_manual_values_in_auto_mode_witness :
  exists c' w',
    set_exposure true (Some 1000) (Some 400) (world_open_idle env_silent_camera)
    = (Returned c', w') /\
    current_config w' = c' /\
    auto_exposure c' = true /\
    exposure_time_us c' = None /\
    iso c' = Some 400 /\
    differ_at_most_on [F_auto_exposure; F_exposure_time_us; F_iso]
                      (current_config (world_open_idle env_silent_camera)) c'.
Proof.
  apply (proj1 (mode_setters_drop_manual_values_in_auto_mode
                  (world_open_idle env_silent_camera) (mkVideoCapture 0 true)
                  true (Some 1000) (Some 400) None None None eq_refl)).
Defined.

Lemma setters_of_different_fields_commute_witness :
  self (snd (set_framerate (15 # 1)
               (snd (set_resolution 640 (2 ^ 1024) (world_open_idle env_silent_camera)))))
  = self (snd (set_resolution 640 (2 ^ 1024)
                 (snd (set_framerate (15 # 1) (world_open_idle env_silent_camera))))) /\
  self (snd (set_white_balance false (Some (3 # 2)) (Some (5 # 4))
               (snd (set_exposure false (Some 1000) None
                       (world_open_idle env_silent_camera)))))
  = self (snd (set_exposure false (Some 1000) None
                 (snd (set_white_balance false (Some (3 # 2)) (Some (5 # 4))
                         (world_open_idle env_silent_camera))))).
Proof.
  apply (setters_of_different_fields_commute (world_open_idle env_silent_camera)
           640 (2 ^ 1024) (15 # 1) false false (Some 1000) None
           (Some (3 # 2)) (Some (5 # 4))).
  reflexivity.
Defined.

Lemma frames_ends_when_streaming_stops_witness :
  frames_next env_silent_camera 1 (frames None) (world_open_idle env_silent_camera) =
    (Returned None, finished (frames None), world_open_idle env_silent_camera) /\
  frames_next env_silent_camera 1 (finished (frames None))
              (world_streaming env_silent_camera) =
    (Returned None, finished (frames None), world_streaming env_silent_camera).
Proof.
  apply (frames_ends_when_streaming_stops env_silent_camera 1 None
           (world_open_idle env_silent_camera) (world_streaming env_silent_camera)).
  reflexivity.
Defined.

Lemma frames_timeout_ends_the_generator_witness :
  (forall fuel : nat, (fuel <= 1)%nat ->
     exists w',
       frames_next env_slow_start fuel (frames (Some (Some (3 # 2))))
                   (world_streaming env_slow_start)
       = (Looping, frames (Some (Some (3 # 2))), w')) /\
  exists w',
    frames_next env_slow_start 2 (frames (Some (Some (3 # 2))))
                (world_streaming env_slow_start)
    = (Raised CameraTimeout, finished (frames (Some (Some (3 # 2)))), w') /\
    is_streaming w' = true.
Proof.
  destruct (frames_timeout_ends_the_generator env_slow_start (3 # 2) 1 0
              (mkVideoCapture 0 true) (world_streaming env_slow_start)
              eq_refl eq_refl
              ltac:(intros i Hi; destruct i as [| [| i]];
                    [reflexivity | reflexivity | lia])
              ltac:(intros i Hi; destruct i as [| i];
                    [vm_compute; reflexivity | lia])
              ltac:(vm_compute; reflexivity))
    as (Hloop & w' & E & Hs & _).
  split; [exact Hloop |]. exists w'. split; [exact E | exact Hs].
Defined.

Lemma frames_delivers_consecutive_buffers_witness :
  exists fs w',
    frames_take (env_camera bgr_buffer) 1 3 (frames None)
                (world_streaming (env_camera bgr_buffer))
    = (fs, frames None, w') /\
    map data fs = [bgr_buffer; bgr_buffer; bgr_buffer] /\
    self w' = self (world_streaming (env_camera bgr_buffer)) /\
    acquisitions w' = 3%nat.
Proof.
  apply (frames_delivers_consecutive_buffers (env_camera bgr_buffer)
           (fun _ => bgr_buffer) (mkVideoCapture 0 true) 0 3 None
           (world_streaming (env_camera bgr_buffer))).
  - reflexivity.
  - reflexivity.
  - reflexivity.
  - intros k. split; reflexivity.
Defined.

Lemma with_block_always_exits_witness :
  with_camera env_silent_camera (capture env_silent_camera None) (fresh_world 0)
  = (Raised CameraTimeout,
     snd (__exit__ (snd (capture env_silent_camera None
                                 (world_open_idle env_silent_camera))))) /\
  is_open (snd (__exit__ (snd (capture env_silent_camera None
                                       (world_open_idle env_silent_camera))))) = false.
Proof.
  destruct (with_block_always_exits env_silent_camera
              (capture env_silent_camera None) (fresh_world 0)
              (world_open_idle env_silent_camera)
              (snd (capture env_silent_camera None (world_open_idle env_silent_camera)))
              (Raised CameraTimeout) eq_refl eq_refl ltac:(discriminate))
    as (H1 & H2 & _).
  split; [exact H1 | exact H2].
Defined.



Lemma create_on_a_registered_class_witness :
  let hw := CameraFactory.CAMERA_HARDWARE_CONFIG in
  CameraFactory.create example_modules CameraFactory.ACTIVE_CAMERA_DRIVER hw =
  (Returned (CameraFactory.mkInstance CameraFactory.OpenCVCamera_class hw),
   [CameraFactory.mkInstance CameraFactory.OpenCVCamera_class hw]) /\
  CameraFactory.create example_modules "Software.Interface.camera_interface.Resolution" hw
  = (Raised TypeError, []).
Proof.
  cbv zeta. split.
  - apply (create_on_a_registered_class example_modules
             (Ascii.ascii_of_nat 83) "oftware.Drivers.opencv_camera" "OpenCVCamera"
             {[ "OpenCVCamera"%string :=
                  CameraFactory.AttrClass CameraFactory.OpenCVCamera_class;
                "CameraInterface"%string :=
                  CameraFactory.AttrClass CameraFactory.CameraInterface_class;
                "cv2"%string := CameraFactory.AttrValue ]}
             CameraFactory.OpenCVCamera_class
             CameraFactory.CAMERA_HARDWARE_CONFIG).
    + reflexivity.
    + reflexivity.
    + vm_compute. reflexivity.
    + vm_compute. reflexivity.
  - apply (create_on_a_registered_class example_modules
             (Ascii.ascii_of_nat 83) "oftware.Interface.camera_interface" "Resolution"
             {[ "CameraInterface"%string :=
                  CameraFactory.AttrClass CameraFactory.CameraInterface_class;
                "Resolution"%string :=
                  CameraFactory.AttrClass CameraFactory.Resolution_class ]}
             CameraFactory.Resolution_class
             CameraFactory.CAMERA_HARDWARE_CONFIG).
    + reflexivity.
    + reflexivity.
    + vm_compute. reflexivity.
    + vm_compute. reflexivity.
Defined.

Lemma create_on_malformed_keys_witness :
  CameraFactory.create example_modules "OpenCVCamera" CameraFactory.CAMERA_HARDWARE_CONFIG
  = (Raised ValueError, []) /\
  CameraFactory.create example_modules (dotted EmptyString "OpenCVCamera")
                       CameraFactory.CAMERA_HARDWARE_CONFIG
  = (Raised ValueError, []) /\
  CameraFactory.create example_modules
                       (dotted (String CameraFactory.dot "opencv_camera") "OpenCVCamera")
                       CameraFactory.CAMERA_HARDWARE_CONFIG
  = (Raised TypeError, []).
Proof.
  apply (create_on_malformed_keys example_modules "OpenCVCamera" "opencv_camera"
           "OpenCVCamera" CameraFactory.CAMERA_HARDWARE_CONFIG); reflexivity.
Defined.

Lemma exit_stops_and_closes_witness :
  exists w',
    __exit__ (world_streaming env_silent_camera) = (Returned tt, w') /\
    is_open w' = false /\
    is_streaming w' = false /\
    w' = snd (close (world_streaming env_silent_camera)).
Proof.
  destruct (exit_stops_and_closes (world_streaming env_silent_camera))
    as (w' & H1 & H2 & H3 & H4 & _).
  exists w'. split; [exact H1 |]. split; [exact H2 |]. split; [exact H3 |].
  apply H4. reflexivity.
Defined.

Lemma rsplit_dot_round_trip_witness :
  CameraFactory.rsplit_dot CameraFactory.ACTIVE_CAMERA_DRIVER
  = Some ("Software.Drivers.opencv_camera"%string, "OpenCVCamera"%string).
Proof.
  apply (proj2 (proj1 (rsplit_dot_round_trip
                         CameraFactory.ACTIVE_CAMERA_DRIVER
                         "Software.Drivers.opencv_camera" "OpenCVCamera"))).
  split; reflexivity.
Defined.
